(** * s3p: the Scratch 3 / Picoboard process supervisor

    A shallow embedding of [s3_extend/s3p.py] (class [S3P]) and the
    properties of its start-up, monitoring and shutdown code.

    The program talks to the operating system through [psutil] and
    [subprocess]; those calls are answered here by an [OS] record, one
    snapshot per phase of the run.  Everything the program does to the
    outside world (printing, sleeping, spawning, killing, setting the stop
    event) is recorded, in order, in a trace of [event]s. *)

From Stdlib Require Import List String ZArith QArith Bool Lia.
Import ListNotations.
Open Scope string_scope.
Open Scope list_scope.
Open Scope Z_scope.

(** ** Python values and exceptions *)

(** A [psutil.Process] object; [p.pid] is its only attribute the program
    reads. *)
Record process := mkProcess { pid : Z }.

(** The exceptions named in the program's [except] clauses. *)
Inductive psutil_error := NoSuchProcess | AccessDenied | ZombieProcess.

(** Exceptions that travel through the supervisor's code. *)
Inductive exn :=
| PsutilError (e : psutil_error)
| AttributeError            (* [None.name()] *)
| OSError (errno : Z) (filename : option string)  (* raised by [subprocess.Popen] *)
| KeyboardInterrupt
| SystemExit (code : Z).

Inductive result (E A : Type) :=
| Ok (a : A)
| Raise (e : E).
Arguments Ok {E A} a.
Arguments Raise {E A} e.

(** What the local variable [p] of [killall] can hold: [None], a pid, or a
    [psutil.Process] object. *)
Inductive pyval :=
| PyNone
| PyInt (n : Z)
| PyProcess (q : process).

(** Python's truth test, [if v:]. *)
Definition truthy (v : pyval) : bool :=
  match v with
  | PyNone => false
  | PyInt n => negb (n =? 0)
  | PyProcess _ => true
  end.

Definition of_pid (o : option Z) : pyval :=
  match o with
  | None => PyNone
  | Some n => PyInt n
  end.

(** [not self.proc_x] is false exactly when the attribute is truthy. *)
Definition known (o : option Z) : bool := truthy (of_pid o).

(** [if self.com_port:] on [None] or a string. *)
Definition truthy_str (o : option string) : bool :=
  match o with
  | None => false
  | Some c => negb (String.eqb c "")
  end.

(** [pid == self.proc_x] on values that are [None] or an integer. *)
Definition pid_eqb (a b : option Z) : bool :=
  match a, b with
  | None, None => true
  | Some x, Some y => x =? y
  | _, _ => false
  end.

(** ** The operating system *)

Inductive role := Backplane | WebsocketGateway | PicoboardGateway.

(** One snapshot of what the OS answers.  [proc_lookup n] is the exception
    [psutil.Process(n)] raises, if any; [Popen] answers with the child's pid
    or raises. *)
Record OS := mkOS {
  win32 : bool;                                   (* sys.platform.startswith('win32') *)
  getpid : Z;                                     (* psutil.Process(None) is the caller *)
  pids : list Z;                                  (* psutil.pids() *)
  proc_lookup : Z -> option psutil_error;         (* psutil.Process(n) *)
  proc_name : Z -> result psutil_error string;    (* p.name() *)
  proc_status : Z -> result psutil_error string;  (* p.status() *)
  proc_kill : Z -> option exn;                    (* p.kill() *)
  Popen : list string -> result exn Z             (* subprocess.Popen(cmd).pid *)
}.

(** [psutil.Process(pid)]: the object for [pid], the calling process when
    [pid] is [None]. *)
Definition psutil_Process (os : OS) (o : option Z) : result psutil_error process :=
  let n := match o with Some n => n | None => getpid os end in
  match proc_lookup os n with
  | Some e => Raise e
  | None => Ok (mkProcess n)
  end.

(** ** Effects *)

Inductive event :=
| EPrint (line : string)                  (* print(...) *)
| ESleep (seconds : Q)                    (* time.sleep(...) *)
| EPopen (cmd : list string) (no_window : bool)  (* subprocess.Popen(...) *)
| EKill (r : role) (q : process)          (* p.kill() in the clause of role r *)
| ESet (was_set : bool)                   (* self.stop_event.set() *)
| EStart.                                 (* self.start(): the monitor thread *)

Definition trace := list event.

(** ** The supervisor object *)

Record S3P := mkS3P {
  com_port : option string;
  backplane_exists : bool;
  proc_bp : option Z;
  proc_awg : option Z;
  proc_hwg : option Z;
  stop_event : bool
}.

Definition set_backplane_exists (v : bool) (s : S3P) : S3P :=
  mkS3P (com_port s) v (proc_bp s) (proc_awg s) (proc_hwg s) (stop_event s).
Definition set_proc_bp (v : option Z) (s : S3P) : S3P :=
  mkS3P (com_port s) (backplane_exists s) v (proc_awg s) (proc_hwg s) (stop_event s).
Definition set_proc_awg (v : option Z) (s : S3P) : S3P :=
  mkS3P (com_port s) (backplane_exists s) (proc_bp s) v (proc_hwg s) (stop_event s).
Definition set_proc_hwg (v : option Z) (s : S3P) : S3P :=
  mkS3P (com_port s) (backplane_exists s) (proc_bp s) (proc_awg s) v (stop_event s).
Definition set_stop_event (v : bool) (s : S3P) : S3P :=
  mkS3P (com_port s) (backplane_exists s) (proc_bp s) (proc_awg s) (proc_hwg s) v.

(** Lines 44-51 of [__init__]. *)
Definition fresh (cp : option string) : S3P :=
  mkS3P cp false None None None false.

(** ** A monad for methods: state, exceptions and the trace *)

Definition M (A : Type) : Type := S3P -> result exn A * S3P * trace.

Definition ret {A} (a : A) : M A := fun s => (Ok a, s, []).

Definition bind {A B} (m : M A) (f : A -> M B) : M B :=
  fun s =>
    match m s with
    | (Ok a, s1, t1) =>
        match f a s1 with
        | (r, s2, t2) => (r, s2, t1 ++ t2)
        end
    | (Raise e, s1, t1) => (Raise e, s1, t1)
    end.

Definition raise {A} (e : exn) : M A := fun s => (Raise e, s, []).
Definition emit (e : event) : M unit := fun s => (Ok tt, s, [e]).
Definition modify (f : S3P -> S3P) : M unit := fun s => (Ok tt, f s, []).
Definition get {A} (f : S3P -> A) : M A := fun s => (Ok (f s), s, []).

Declare Scope py_scope.
Delimit Scope py_scope with py.
Notation "x <- m ;; k" := (bind m (fun x => k))
  (at level 61, m at next level, right associativity) : py_scope.
Notation "m ;; k" := (bind m (fun _ => k))
  (at level 61, right associativity) : py_scope.
Open Scope py_scope.

Definition print (line : string) : M unit := emit (EPrint line).
Definition sleep (seconds : Q) : M unit := emit (ESleep seconds).

(** [subprocess.Popen(cmd, ...).pid]; the two platform variants differ only
    in the keyword arguments. *)
Definition spawn (os : OS) (cmd : list string) : M Z :=
  emit (EPopen cmd (win32 os)) ;;
  match Popen os cmd with
  | Ok n => ret n
  | Raise e => raise e
  end.

(** ** start_backplane (lines 165-193) *)

(** The body of [for pid in psutil.pids()], with [p] the local variable as
    the previous iteration left it. *)
Fixpoint scan (os : OS) (p : option process) (l : list Z) : M unit :=
  match l with
  | [] => ret tt
  | n :: rest =>
      let p' := match psutil_Process os (Some n) with
                | Ok q => Some q
                | Raise _ => p           (* except ...: pass *)
                end in
      match p' with
      | None => raise AttributeError
      | Some q =>
          match proc_name os (pid q) with
          | Raise e => raise (PsutilError e)
          | Ok nm =>
              if String.eqb nm "backplane" then
                print "Backplane started." ;;
                modify (set_backplane_exists true) ;;
                modify (set_proc_bp (Some (pid q))) ;;
                scan os p' rest
              else scan os p' rest
          end
      end
  end.

Definition backplane_cmd : list string := ["backplane"].

Definition start_backplane (os : OS) : M unit :=
  scan os None (pids os) ;;
  found <- get backplane_exists ;;
  if negb found then
    n <- spawn os backplane_cmd ;;
    modify (set_proc_bp (Some n)) ;;
    modify (set_backplane_exists true) ;;
    print "Backplane started."
  else ret tt.

(** ** start_wsgw (lines 195-212) and start_pbgw (lines 214-234) *)

Definition wsgw_start : list string := ["wsgw"; "-i"; "9004"].

Definition start_wsgw (os : OS) : M unit :=
  n <- spawn os wsgw_start ;;
  modify (set_proc_awg (Some n)) ;;
  print "Websocket Gateway started.".

Definition pbgw_start (cp : option string) : list string :=
  if truthy_str cp then
    ["pbgw"] ++ ["-c"] ++ [match cp with Some c => c | None => "" end]
  else ["pbgw"].

Definition start_pbgw (os : OS) : M unit :=
  cp <- get com_port ;;
  n <- spawn os (pbgw_start cp) ;;
  modify (set_proc_hwg (Some n)) ;;
  print "Picoboard Gateway started.".

(** Lines 53-61 of [__init__]: the start-up sequence. *)
Definition startup (os : OS) : M unit :=
  start_backplane os ;;
  sleep 1 ;;
  start_wsgw os ;;
  start_pbgw os.

(** ** killall (lines 118-163) *)

(** [self.stop_event.set()]; the event records whether the flag was already
    set. *)
Definition stop_event_set : M unit :=
  was <- get stop_event ;;
  emit (ESet was) ;;
  modify (set_stop_event true).

(** The inner [try: print(...); p.kill() except: print(...)]. *)
Definition try_kill (os : OS) (r : role) (q : process)
    (msg_kill msg_exc : string) : M unit :=
  print msg_kill ;;
  emit (EKill r q) ;;
  match proc_kill os (pid q) with
  | None => ret tt
  | Some _ => print msg_exc
  end.

(** The clause [if b: ...].  It returns the value of the local [p] after
    the clause: the assignment [p = psutil.Process(self.proc_bp)] takes
    place only when the lookup does not raise. *)
Definition kill_backplane (os : OS) (b p : pyval) : M pyval :=
  if truthy b then
    o <- get proc_bp ;;
    match psutil_Process os o with
    | Raise _ => ret p
    | Ok q =>
        try_kill os Backplane q "killing backplane" "exception in killing backplane" ;;
        ret (PyProcess q)
    end
  else ret p.

(** The clause [if w: ...]. *)
Definition kill_wsgw (os : OS) (w p : pyval) : M pyval :=
  if truthy w then
    o <- get proc_awg ;;
    match psutil_Process os o with
    | Raise _ => ret p
    | Ok q =>
        try_kill os WebsocketGateway q "killing websocket gateway" "exception in killing awg" ;;
        ret (PyProcess q)
    end
  else ret p.

(** The clause [if p: ...], tested on [p] as the two clauses before it left
    it. *)
Definition kill_pbgw (os : OS) (p : pyval) : M pyval :=
  if truthy p then
    o <- get proc_hwg ;;
    match psutil_Process os o with
    | Raise _ => ret p
    | Ok q =>
        try_kill os PicoboardGateway q "killing picoboard gateway" "exception in killing pbgw" ;;
        ret (PyProcess q)
    end
  else ret p.

Definition killall (os : OS) (b w p : pyval) : M unit :=
  stop_event_set ;;
  p1 <- kill_backplane os b p ;;
  p2 <- kill_wsgw os w p1 ;;
  _ <- kill_pbgw os p2 ;;
  ret tt.

(** ** run: the monitor thread (lines 85-116) *)

Definition valid_status : list string := ["sleeping"; "running"; "disk-sleep"].

Definition status_in (st : string) (l : list string) : bool :=
  existsb (String.eqb st) l.

(** [print(a, b)] writes the two arguments separated by one space. *)
Definition print2 (a b : string) : M unit :=
  print (a ++ " " ++ b)%string.

(** Lines 89-96: the advisory lines, then [pid_list]. *)
Definition run_prologue : M (list (option Z)) :=
  bp <- get proc_bp ;;
  (if negb (known bp) then print "backplane not up" else ret tt) ;;
  bp' <- get proc_bp ;;
  (if negb (known bp') then print "wsgw not up" else ret tt) ;;
  hwg <- get proc_hwg ;;
  (if negb (known hwg) then print "pbgw not up" else ret tt) ;;
  b <- get proc_bp ;;
  w <- get proc_awg ;;
  h <- get proc_hwg ;;
  ret [b; w; h].

(** The body of [for pid in pid_list]; [bp], [ws] and [pb] are the three
    locals bound to [None] at line 101. *)
Definition check_pid (os : OS) (o : option Z) : M unit :=
  let bp := PyNone in
  let ws := PyNone in
  let pb := PyNone in
  match psutil_Process os o with
  | Raise _ => killall os bp ws pb
  | Ok proc_info =>
      match proc_status os (pid proc_info) with
      | Raise _ => killall os bp ws pb
      | Ok status =>
          if negb (status_in status valid_status) then
            b <- get proc_bp ;;
            w <- get proc_awg ;;
            (if pid_eqb o b then
               print2 "Backplane exited with status of: " status
             else if pid_eqb o w then
               print2 "Websocket Gateway exited with status of: " status
             else
               print2 "Picoboard Gateway exited with status of: " status) ;;
            killall os bp ws pb
          else ret tt
      end
  end.

Fixpoint for_each {A} (f : A -> M unit) (l : list A) : M unit :=
  match l with
  | [] => ret tt
  | x :: rest => f x ;; for_each f rest
  end.

(** One pass of the [while] body, lines 101-116. *)
Definition monitor_cycle (os : OS) (pid_list : list (option Z)) : M unit :=
  for_each (check_pid os) pid_list ;;
  sleep (3 # 10).

(** The monitor thread between two scheduling points. *)
Inductive monitor :=
| NotStarted
| Looping (pid_list : list (option Z))
| Finished.

Definition monitor_step (os : OS) (m : monitor) : M monitor :=
  match m with
  | NotStarted =>
      pid_list <- run_prologue ;;
      ret (Looping pid_list)
  | Looping pid_list =>
      stop <- get stop_event ;;
      if stop then ret Finished
      else monitor_cycle os pid_list ;; ret (Looping pid_list)
  | Finished => ret Finished
  end.

(** ** The wait loop of [__init__] (lines 76-83) and the signal handler *)

(** Where a signal finds the main thread during one pass of [while True]:
    not at all, at lines 77-79 (the test of the stop event, outside the
    [try]), or inside [time.sleep(.01)] at line 81. *)
Inductive signal_at :=
| NoSignal
| OutsideTry
| InSleep.

(** [signal_handler] (lines 237-239). *)
Definition signal_handler : M unit :=
  print "Exiting Through Signal Handler" ;;
  raise KeyboardInterrupt.

Definition is_KeyboardInterrupt (e : exn) : bool :=
  match e with
  | KeyboardInterrupt => true
  | _ => false
  end.

(** [try: body except <catches>: handler]. *)
Definition try_except {A} (body : M A) (catches : exn -> bool) (handler : M A)
    : M A :=
  fun s =>
    match body s with
    | (Raise e, s1, t1) =>
        if catches e then
          match handler s1 with
          | (r, s2, t2) => (r, s2, t1 ++ t2)
          end
        else (Raise e, s1, t1)
    | ok => ok
    end.

(** One pass of [while True].  The handler raises [KeyboardInterrupt] in
    the main thread wherever that thread is: inside the [try] the [except]
    clause turns it into [sys.exit(0)]; at the test of the stop event nothing
    catches it. *)
Definition main_tick (sg : signal_at) : M unit :=
  match sg with
  | OutsideTry => signal_handler
  | _ =>
      stop <- get stop_event ;;
      if stop then
        print "Exiting. Error detected - is your Picoboard plugged in?" ;;
        raise (SystemExit 0)
      else
        try_except
          (sleep (1 # 100) ;;
           match sg with
           | InSleep => signal_handler
           | _ => ret tt
           end)
          is_KeyboardInterrupt
          (raise (SystemExit 0))
  end.

(** The place of the signal in a pass that is interrupted, or not, during
    its sleep. *)
Definition in_sleep (interrupted : bool) : signal_at :=
  if interrupted then InSleep else NoSignal.

(** ** The whole run *)

(** How the interpreter ends: by [sys.exit(code)], or with an exception
    nobody caught, whose traceback it writes on stderr before it runs the
    exit hooks and leaves. *)
Inductive outcome :=
| Exited (code : Z)
| Crashed (e : exn).

Definition outcome_of (e : exn) : outcome :=
  match e with
  | SystemExit c => Exited c
  | _ => Crashed e
  end.


(** The two threads take turns; each turn sees its own OS snapshot.  A
    [MainTick] is a pass of the wait loop, interrupted or not by a signal
    during its sleep; a [MainSignal] is a pass that a signal reaches at the
    test of the stop event.  The snapshot of a turn of the main thread also
    answers the exit hook if the turn ends the process. *)
Inductive step :=
| MonitorStep (os : OS)
| MainTick (os : OS) (interrupted : bool)
| MainSignal (os : OS).

(** The arguments [atexit.register] captured at line 63. *)
Definition hook_args : Type := (pyval * pyval * pyval)%type.

Definition run_hook (os : OS) (h : hook_args) : M unit :=
  match h with
  | (b, w, p) => killall os b w p
  end.

(** The run from line 74 on.  [None] as outcome: the schedule ended with the
    process still alive. *)
Fixpoint wait_loop (h : hook_args) (sched : list step) (m : monitor) (s : S3P)
    : option outcome * S3P * trace :=
  match sched with
  | [] => (None, s, [])
  | MonitorStep os :: rest =>
      match monitor_step os m s with
      | (Ok m', s1, t1) =>
          match wait_loop h rest m' s1 with
          | (o, s2, t2) => (o, s2, t1 ++ t2)
          end
      | (Raise _, s1, t1) =>
          match wait_loop h rest Finished s1 with
          | (o, s2, t2) => (o, s2, t1 ++ t2)
          end
      end
  | MainTick os i :: rest =>
      match main_tick (in_sleep i) s with
      | (Ok _, s1, t1) =>
          match wait_loop h rest m s1 with
          | (o, s2, t2) => (o, s2, t1 ++ t2)
          end
      | (Raise e, s1, t1) =>
          match run_hook os h s1 with
          | (_, s2, t2) => (Some (outcome_of e), s2, t1 ++ t2)
          end
      end
  | MainSignal os :: rest =>
      match main_tick OutsideTry s with
      | (Ok _, s1, t1) =>
          match wait_loop h rest m s1 with
          | (o, s2, t2) => (o, s2, t1 ++ t2)
          end
      | (Raise e, s1, t1) =>
          match run_hook os h s1 with
          | (_, s2, t2) => (Some (outcome_of e), s2, t1 ++ t2)
          end
      end
  end.

(** [S3P(com_port)]: the constructor, which returns only by ending the
    process. *)
Definition S3P_init (os0 : OS) (cp : option string) (sched : list step)
    : option outcome * S3P * trace :=
  match startup os0 (fresh cp) with
  | (Raise e, s, t) => (Some (outcome_of e), s, t)
  | (Ok _, s, t) =>
      let h := (of_pid (proc_bp s), of_pid (proc_awg s), of_pid (proc_hwg s)) in
      match wait_loop h sched NotStarted (set_stop_event false s) with
      | (o, s', t') => (o, s', t ++ [EStart] ++ t')
      end
  end.

(** ** Reading traces *)

Definition printed (t : trace) : list string :=
  flat_map (fun e => match e with EPrint l => [l] | _ => [] end) t.

Definition spawned (t : trace) : list (list string) :=
  flat_map (fun e => match e with EPopen c _ => [c] | _ => [] end) t.

Definition role_eqb (a b : role) : bool :=
  match a, b with
  | Backplane, Backplane => true
  | WebsocketGateway, WebsocketGateway => true
  | PicoboardGateway, PicoboardGateway => true
  | _, _ => false
  end.

(** [p.kill()] in the clause of role [r]. *)
Definition is_kill (r : role) (e : event) : bool :=
  match e with
  | EKill r' _ => role_eqb r r'
  | _ => false
  end.

Definition kills (r : role) (t : trace) : nat :=
  List.length (filter (is_kill r) t).

(** [stop_event.set()] calls that found the flag clear. *)
Definition is_transition (e : event) : bool :=
  match e with
  | ESet false => true
  | _ => false
  end.

Definition transitions (t : trace) : nat :=
  List.length (filter is_transition t).

(** ** Sample systems *)

Definition os_of (ps : list (Z * string * string)) (spawn_ok : list string -> result exn Z) : OS :=
  mkOS false 1 (map (fun x => fst (fst x)) ps)
    (fun n => if existsb (fun x => fst (fst x) =? n) ps then None else Some NoSuchProcess)
    (fun n => match find (fun x => fst (fst x) =? n) ps with
              | Some x => Ok (snd (fst x))
              | None => Raise NoSuchProcess
              end)
    (fun n => match find (fun x => fst (fst x) =? n) ps with
              | Some x => Ok (snd x)
              | None => Raise NoSuchProcess
              end)
    (fun _ => None)
    spawn_ok.

Definition spawn_all (cmd : list string) : result exn Z :=
  match cmd with
  | "backplane" :: _ => Ok 100
  | "wsgw" :: _ => Ok 200
  | "pbgw" :: _ => Ok 300
  | _ => Raise (OSError 2 None)
  end.


(** ** What the registry scan looks for *)

Definition names_backplane (os : OS) (n : Z) : bool :=
  match proc_name os n with
  | Ok nm => String.eqb nm "backplane"
  | Raise _ => false
  end.

(** An enumerated pid that can be looked up and is called [backplane]. *)
Definition matching (os : OS) (n : Z) : bool :=
  match proc_lookup os n with
  | None => names_backplane os n
  | Some _ => false
  end.

(** The first and the last match in enumeration order. *)
Definition first_match (os : OS) : option Z := find (matching os) (pids os).
Definition last_match (os : OS) : option Z := find (matching os) (rev (pids os)).

(** The stale value of [p] is harmless when, if it is a backplane, it has
    been adopted already. *)
Definition adopted_if_backplane (os : OS) (p : option process) (s : S3P) : Prop :=
  forall q, p = Some q -> names_backplane os (pid q) = true ->
    proc_bp s = Some (pid q) /\ backplane_exists s = true.


(** ** Closed forms used in the proofs *)

(** What [try_kill] leaves in the trace. *)
Definition clause_trace (os : OS) (r : role) (q : process)
    (msg_kill msg_exc : string) : trace :=
  EPrint msg_kill :: EKill r q ::
  match proc_kill os (pid q) with
  | None => []
  | Some _ => [EPrint msg_exc]
  end.

(** One [if guard: ...] clause of [killall] as a function of the local [p]:
    the new [p] and the events. *)
Definition clause (os : OS) (r : role) (guard : pyval) (target : option Z)
    (msg_kill msg_exc : string) (p : pyval) : pyval * trace :=
  if truthy guard then
    match psutil_Process os target with
    | Raise _ => (p, [])
    | Ok q => (PyProcess q, clause_trace os r q msg_kill msg_exc)
    end
  else (p, []).

Definition bp_clause (os : OS) (s : S3P) (b p : pyval) : pyval * trace :=
  clause os Backplane b (proc_bp s) "killing backplane" "exception in killing backplane" p.
Definition ws_clause (os : OS) (s : S3P) (w p : pyval) : pyval * trace :=
  clause os WebsocketGateway w (proc_awg s) "killing websocket gateway" "exception in killing awg" p.
Definition pb_clause (os : OS) (s : S3P) (p : pyval) : pyval * trace :=
  clause os PicoboardGateway p (proc_hwg s) "killing picoboard gateway" "exception in killing pbgw" p.

(** The monitor's verdict on one entry of [pid_list]: the lookup or the
    status query raises, or the status is not a valid one. *)
Definition unhealthy (os : OS) (o : option Z) : bool :=
  match psutil_Process os o with
  | Raise _ => true
  | Ok q =>
      match proc_status os (pid q) with
      | Raise _ => true
      | Ok st => negb (status_in st valid_status)
      end
  end.

(** The attribute of a role. *)
Definition proc_of (r : role) (s : S3P) : option Z :=
  match r with
  | Backplane => proc_bp s
  | WebsocketGateway => proc_awg s
  | PicoboardGateway => proc_hwg s
  end.

Definition same_procs (s s' : S3P) : Prop :=
  proc_bp s' = proc_bp s /\ proc_awg s' = proc_awg s /\ proc_hwg s' = proc_hwg s.

(** Events that neither spawn nor kill. *)
Definition harmless (e : event) : Prop :=
  match e with
  | EPrint _ | ESleep _ | ESet _ => True
  | _ => False
  end.

(** The bookkeeping of the stop event along a piece of the run from [s] to
    [s'] with trace [t]: the flag only goes up, every [set()] leaves it up,
    and the trace shows one transition exactly when it went up. *)
Definition flag_kept (s s' : S3P) (t : trace) : Prop :=
  same_procs s s' /\
  (stop_event s = true -> stop_event s' = true) /\
  ((exists b, In (ESet b) t) -> stop_event s' = true) /\
  transitions t = (if stop_event s then 0 else if stop_event s' then 1 else 0)%nat.

(** [pid_list] as line 96 builds it. *)
Definition pid_list_of (s : S3P) : list (option Z) :=
  [proc_bp s; proc_awg s; proc_hwg s].

(** The arguments line 63 hands to [atexit.register]. *)
Definition hook_of (s : S3P) : hook_args :=
  (of_pid (proc_bp s), of_pid (proc_awg s), of_pid (proc_hwg s)).

Definition error_line : string :=
  "Exiting. Error detected - is your Picoboard plugged in?".
Definition signal_line : string := "Exiting Through Signal Handler".

(** What the end of a run looks like: the exit hook has set the flag, and
    the run ended either with [sys.exit(0)], after the error line or the
    signal handler's line, or with the uncaught [KeyboardInterrupt] of a
    signal that came outside the [try]. *)
Definition ended (sched : list step) (s' : S3P) (t : trace) (out : outcome) : Prop :=
  stop_event s' = true /\
  ((out = Exited 0 /\ (In (EPrint error_line) t \/ In (EPrint signal_line) t)) \/
   (out = Crashed KeyboardInterrupt /\ In (EPrint signal_line) t /\
    exists os, In (MainSignal os) sched)).

(** ** Sample systems and runs *)

(** A machine with an [init] process and a running backplane, pid 100. *)
Definition os_boot : OS :=
  os_of [(1, "init", "sleeping"); (100, "backplane", "sleeping")] spawn_all.

(** The same machine once the gateways run; the device gateway, pid 300, has
    become a zombie. *)
Definition os_zombie : OS :=
  os_of [(1, "init", "sleeping"); (100, "backplane", "sleeping");
         (200, "wsgw", "running"); (300, "pbgw", "zombie")] spawn_all.

(** Two processes called [backplane], pids 10 and 20. *)
Definition os_two_backplanes : OS :=
  os_of [(10, "backplane", "sleeping"); (20, "backplane", "sleeping")] spawn_all.

(** The enumeration lists pid 7 first, but the process is gone when it is
    looked up; a backplane runs as pid 100. *)
Definition os_first_vanished : OS :=
  mkOS false 1 [7; 100]
    (fun n => if n =? 7 then Some NoSuchProcess else None)
    (fun n => if n =? 100 then Ok "backplane" else Ok "init")
    (fun _ => Ok "sleeping")
    (fun _ => None)
    spawn_all.

(** Pid 7 is still there when it is looked up and gone when its name is
    asked for. *)
Definition os_name_race : OS :=
  mkOS false 1 [1; 7; 100]
    (fun _ => None)
    (fun n => if n =? 7 then Raise NoSuchProcess
              else if n =? 100 then Ok "backplane" else Ok "init")
    (fun _ => Ok "sleeping")
    (fun _ => None)
    spawn_all.

(** A machine without a [wsgw] executable. *)
Definition os_no_wsgw : OS :=
  os_of [(1, "init", "sleeping")]
    (fun cmd => match cmd with
                | "wsgw" :: _ => Raise (OSError 2 (Some "wsgw"))
                | _ => spawn_all cmd
                end).

(** The supervisor once start-up is over, with the three pids of the
    samples. *)
Definition s_running : S3P :=
  mkS3P None true (Some 100) (Some 200) (Some 300) false.

(** The monitor starts, finds the zombie, and the wait loop takes its next
    turn. *)
Definition sched_zombie : list step :=
  [MonitorStep os_zombie; MonitorStep os_zombie; MainTick os_zombie false].



(** What start-up does once the backplane is up: the delay, then the two
    gateway launches. *)
Definition gateways_after_delay (os : OS) (cp : option string) : trace :=
  [ESleep 1;
   EPopen wsgw_start (win32 os); EPrint "Websocket Gateway started.";
   EPopen (pbgw_start cp) (win32 os); EPrint "Picoboard Gateway started."].


(** The events of start-up: prints, launches and the delay. *)
Definition startup_event (e : event) : Prop :=
  match e with
  | EPrint _ | EPopen _ _ | ESleep _ => True
  | _ => False
  end.


(** ** Launch failures *)











(** ** The advisory lines *)





(** ** The parameter [p] of killall *)

(** C10 as the specification states it: a backplane argument other than
    [None] and a backplane that can be looked up make the picoboard clause
    run, and kill, for a caller's [p] of [None]. *)
Definition p_reassignment_claim : Prop :=
  forall os s b w q h,
    b <> PyNone ->
    psutil_Process os (proc_bp s) = Ok q ->
    psutil_Process os (proc_hwg s) = Ok h ->
    In (EKill PicoboardGateway h) (snd (killall os b w PyNone s)).

(** ** s3px (lines 242-257) *)

(** [args.com_port]: the value given to [-c], the string ["None"] when the
    option is absent ([default="None"]). *)
Definition parse_com_port (c : option string) : string :=
  match c with
  | Some v => v
  | None => "None"
  end.

(** [s3px()], with the value of [-c] on the command line as its input. *)
Definition s3px (c : option string) (os0 : OS) (sched : list step)
    : option outcome * S3P * trace :=
  let arg := parse_com_port c in
  let com_port := if String.eqb arg "None" then None else Some arg in
  S3P_init os0 com_port sched.

(** The command line the device gateway is expected to get for a value of
    [-c]. *)
Definition pbgw_cmd_for (c : option string) : list string :=
  match c with
  | None => ["pbgw"]
  | Some v =>
      if (String.eqb v "None" || String.eqb v "")%bool then ["pbgw"]
      else ["pbgw"; "-c"; v]
  end.

(** ** More ways to read traces and systems *)

Definition is_set (e : event) : bool :=
  match e with
  | ESet _ => true
  | _ => false
  end.

(** Calls of [stop_event.set()]. *)
Definition sets (t : trace) : nat := List.length (filter is_set t).

(** The [kill()] calls of a trace, in order. *)
Definition kill_events (t : trace) : trace :=
  filter (fun e => match e with EKill _ _ => true | _ => false end) t.

Definition lookup_ok (os : OS) (o : option Z) : bool :=
  match psutil_Process os o with
  | Ok _ => true
  | Raise _ => false
  end.

(** The line the monitor prints for a role whose status is not valid. *)
Definition exit_line (r : role) (status : string) : string :=
  match r with
  | Backplane => "Backplane exited with status of:  " ++ status
  | WebsocketGateway => "Websocket Gateway exited with status of:  " ++ status
  | PicoboardGateway => "Picoboard Gateway exited with status of:  " ++ status
  end%string.

(** A turn that gives the supervisor no reason to stop: every entry of
    [pid_list] is healthy, or the wait loop sleeps undisturbed. *)
Definition quiet_step (s : S3P) (st : step) : Prop :=
  match st with
  | MonitorStep os => existsb (unhealthy os) (pid_list_of s) = false
  | MainTick _ i => i = false
  | MainSignal _ => False
  end.

(** The machine [os_zombie], except that [kill()] is denied for the
    backplane, pid 100. *)
Definition os_kill_fails : OS :=
  mkOS (win32 os_zombie) (getpid os_zombie) (pids os_zombie)
    (proc_lookup os_zombie) (proc_name os_zombie) (proc_status os_zombie)
    (fun n => if n =? 100 then Some (PsutilError AccessDenied) else None)
    (Popen os_zombie).

(** A healthy machine with the three supervised processes. *)
Definition os_healthy : OS :=
  os_of [(1, "init", "sleeping"); (100, "backplane", "sleeping");
         (200, "wsgw", "running"); (300, "pbgw", "disk-sleep")] spawn_all.

(** The enumeration lists pid 7 in the middle, gone at lookup time. *)
Definition os_later_vanished : OS :=
  mkOS false 1 [1; 7; 100]
    (fun n => if n =? 7 then Some NoSuchProcess else None)
    (fun n => if n =? 100 then Ok "backplane" else Ok "init")
    (fun _ => Ok "sleeping")
    (fun _ => None)
    spawn_all.



(** * Properties *)

(** ** The monad *)

Lemma find_app {A} (f : A -> bool) (l1 l2 : list A) :
  find f (l1 ++ l2) = match find f l1 with Some x => Some x | None => find f l2 end.
Proof.
  induction l1 as [|x l1 IH]; simpl; [reflexivity|].
  destruct (f x); [reflexivity | exact IH].
Qed.

Lemma printed_app t1 t2 : printed (t1 ++ t2) = printed t1 ++ printed t2.
Proof. unfold printed. apply flat_map_app. Qed.

Lemma spawned_app t1 t2 : spawned (t1 ++ t2) = spawned t1 ++ spawned t2.
Proof. unfold spawned. apply flat_map_app. Qed.

Lemma kills_app r t1 t2 : kills r (t1 ++ t2) = (kills r t1 + kills r t2)%nat.
Proof. unfold kills. rewrite filter_app, length_app. reflexivity. Qed.

Lemma transitions_app t1 t2 :
  transitions (t1 ++ t2) = (transitions t1 + transitions t2)%nat.
Proof. unfold transitions. rewrite filter_app, length_app. reflexivity. Qed.

(** ** The registry scan *)

(** One iteration of the scan loop, with the monad unfolded. *)
Lemma scan_cons os p n rest s :
  scan os p (n :: rest) s =
  match (match psutil_Process os (Some n) with Ok q => Some q | Raise _ => p end) with
  | None => (Raise AttributeError, s, [])
  | Some q =>
      match proc_name os (pid q) with
      | Raise e => (Raise (PsutilError e), s, [])
      | Ok nm =>
          if String.eqb nm "backplane" then
            match scan os (Some q) rest
                    (set_proc_bp (Some (pid q)) (set_backplane_exists true s)) with
            | (r, s2, t2) => (r, s2, EPrint "Backplane started." :: t2)
            end
          else scan os (Some q) rest s
      end
  end.
Proof.
  simpl.
  destruct (match psutil_Process os (Some n) with Ok q => Some q | Raise _ => p end)
    as [q|]; [|reflexivity].
  destruct (proc_name os (pid q)) as [nm|e]; [|reflexivity].
  destruct (String.eqb nm "backplane"); [|reflexivity].
  unfold bind, print, emit, modify; simpl.
  destruct (scan os (Some q) rest _) as [[r s2] t2]. reflexivity.
Qed.

Lemma psutil_Process_Some os n :
  psutil_Process os (Some n) =
  match proc_lookup os n with Some e => Raise e | None => Ok (mkProcess n) end.
Proof. reflexivity. Qed.

(** The scan never calls the launcher. *)
Lemma scan_spawned os l : forall p s, spawned (snd (scan os p l s)) = [].
Proof.
  induction l as [|n rest IH]; intros p s; [reflexivity|].
  rewrite scan_cons.
  destruct (match psutil_Process os (Some n) with Ok q => Some q | Raise _ => p end)
    as [q|]; [|reflexivity].
  destruct (proc_name os (pid q)) as [nm|e]; [|reflexivity].
  destruct (String.eqb nm "backplane"); [|apply IH].
  specialize (IH (Some q) (set_proc_bp (Some (pid q)) (set_backplane_exists true s))).
  destruct (scan os (Some q) rest _) as [[r s2] t2]. exact IH.
Qed.

(** Once the flag [backplane_exists] is up the scan leaves it up. *)
Lemma scan_exists_mono os l : forall p s,
  backplane_exists s = true ->
  backplane_exists (snd (fst (scan os p l s))) = true.
Proof.
  induction l as [|n rest IH]; intros p s H; [exact H|].
  rewrite scan_cons.
  destruct (match psutil_Process os (Some n) with Ok q => Some q | Raise _ => p end)
    as [q|]; [|exact H].
  destruct (proc_name os (pid q)) as [nm|e]; [|exact H].
  destruct (String.eqb nm "backplane"); [|apply IH; exact H].
  specialize (IH (Some q) (set_proc_bp (Some (pid q)) (set_backplane_exists true s))
                 eq_refl).
  destruct (scan os (Some q) rest _) as [[r s2] t2]. exact IH.
Qed.

(** The scan prints only when it raises the flag. *)
Lemma scan_quiet os l : forall p s,
  backplane_exists (snd (fst (scan os p l s))) = false ->
  printed (snd (scan os p l s)) = [].
Proof.
  induction l as [|n rest IH]; intros p s H; [reflexivity|].
  revert H. rewrite scan_cons.
  destruct (match psutil_Process os (Some n) with Ok q => Some q | Raise _ => p end)
    as [q|]; [|reflexivity].
  destruct (proc_name os (pid q)) as [nm|e]; [|reflexivity].
  destruct (String.eqb nm "backplane"); [|apply IH].
  pose proof (scan_exists_mono os rest (Some q)
                (set_proc_bp (Some (pid q)) (set_backplane_exists true s)) eq_refl) as Hm.
  destruct (scan os (Some q) rest _) as [[r s2] t2]. simpl in *.
  intros H. congruence.
Qed.

(** A visible backplane in the enumeration: the scan raises the flag, unless
    an exception ends it. *)
Lemma scan_found os m l : forall p s,
  In m l -> matching os m = true ->
  match scan os p l s with
  | (Ok _, s', _) => backplane_exists s' = true
  | (Raise _, _, _) => True
  end.
Proof.
  induction l as [|n rest IH]; intros p s Hin Hm; [contradiction|].
  rewrite scan_cons, psutil_Process_Some.
  destruct Hin as [->|Hin].
  - unfold matching, names_backplane in Hm.
    destruct (proc_lookup os m); [discriminate|]. simpl.
    destruct (proc_name os m) as [nm|e]; [|exact I].
    rewrite Hm.
    pose proof (scan_exists_mono os rest (Some (mkProcess m))
                  (set_proc_bp (Some m) (set_backplane_exists true s)) eq_refl) as Hx.
    destruct (scan os _ rest _) as [[r s2] t2]. simpl in Hx.
    destruct r; [exact Hx | exact I].
  - destruct (match match proc_lookup os n with
                    | Some e => Raise e | None => Ok (mkProcess n) end with
              | Ok q => Some q | Raise _ => p end) as [q|]; [|exact I].
    destruct (proc_name os (pid q)) as [nm|e]; [|exact I].
    destruct (String.eqb nm "backplane").
    + specialize (IH (Some q) (set_proc_bp (Some (pid q)) (set_backplane_exists true s))
                     Hin Hm).
      destruct (scan os (Some q) rest _) as [[r s2] t2]. exact IH.
    + apply IH; assumption.
Qed.

(** What a scan that completes leaves in [proc_bp] and [backplane_exists]:
    the last match of the enumeration, if there is one. *)
Lemma scan_adopts os l : forall p s s' t,
  adopted_if_backplane os p s ->
  scan os p l s = (Ok tt, s', t) ->
  match find (matching os) (rev l) with
  | Some m => proc_bp s' = Some m /\ backplane_exists s' = true
  | None => proc_bp s' = proc_bp s /\ backplane_exists s' = backplane_exists s
  end.
Proof.
  induction l as [|n rest IH]; intros p s s' t Hp Hs.
  - inversion Hs; subst. simpl. auto.
  - simpl rev. rewrite find_app. simpl find.
    rewrite scan_cons, psutil_Process_Some in Hs.
    unfold matching at 2. unfold names_backplane.
    destruct (proc_lookup os n) as [err|] eqn:Hl.
    + (* the lookup raises: [p] keeps its stale value *)
      destruct p as [q|]; [|discriminate].
      destruct (proc_name os (pid q)) as [nm|e] eqn:Hn; [|discriminate].
      destruct (String.eqb nm "backplane") eqn:Hb.
      * destruct (Hp q eq_refl) as [Hbp Hex].
        { unfold names_backplane. rewrite Hn. exact Hb. }
        destruct (scan os (Some q) rest _) as [[r s2] t2] eqn:Hrest.
        inversion Hs; subst.
        apply IH in Hrest.
        -- destruct (find (matching os) (rev rest)); [exact Hrest|].
           simpl in Hrest. destruct Hrest as [-> ->]. auto.
        -- intros q' Hq' _. inversion Hq'; subst. simpl. auto.
      * apply IH in Hs; [|exact Hp].
        destruct (find (matching os) (rev rest)); exact Hs.
    + (* the lookup succeeds *)
      simpl in Hs.
      destruct (proc_name os n) as [nm|e] eqn:Hn; [|discriminate].
      destruct (String.eqb nm "backplane") eqn:Hb.
      * destruct (scan os (Some (mkProcess n)) rest _) as [[r s2] t2] eqn:Hrest.
        inversion Hs; subst.
        apply IH in Hrest.
        -- destruct (find (matching os) (rev rest)); [exact Hrest|].
           simpl in Hrest. exact Hrest.
        -- intros q' Hq' _. inversion Hq'; subst. simpl. auto.
      * apply IH in Hs.
        -- destruct (find (matching os) (rev rest)); exact Hs.
        -- intros q' Hq' Hnb. inversion Hq'; subst. simpl in Hnb.
           unfold names_backplane in Hnb. rewrite Hn in Hnb. congruence.
Qed.

(** [start_backplane], with the monad unfolded. *)
Lemma start_backplane_eq os s :
  start_backplane os s =
  match scan os None (pids os) s with
  | (Raise e, s1, t1) => (Raise e, s1, t1)
  | (Ok _, s1, t1) =>
      if backplane_exists s1 then (Ok tt, s1, t1 ++ [])
      else
        match Popen os backplane_cmd with
        | Raise e => (Raise e, s1, t1 ++ [EPopen backplane_cmd (win32 os)])
        | Ok n => (Ok tt, set_backplane_exists true (set_proc_bp (Some n) s1),
                   t1 ++ [EPopen backplane_cmd (win32 os); EPrint "Backplane started."])
        end
  end.
Proof.
  unfold start_backplane, bind at 1.
  destruct (scan os None (pids os) s) as [[[u|e] s1] t1]; [|reflexivity].
  unfold bind at 1. unfold get at 1.
  destruct (backplane_exists s1) eqn:Hex; simpl.
  - reflexivity.
  - unfold spawn, bind, emit, modify, print, ret, raise. simpl.
    destruct (Popen os backplane_cmd); reflexivity.
Qed.

Lemma start_wsgw_eq os s :
  start_wsgw os s =
  match Popen os wsgw_start with
  | Raise e => (Raise e, s, [EPopen wsgw_start (win32 os)])
  | Ok n => (Ok tt, set_proc_awg (Some n) s,
             [EPopen wsgw_start (win32 os); EPrint "Websocket Gateway started."])
  end.
Proof.
  unfold start_wsgw, spawn, bind, emit, modify, print, ret, raise. simpl.
  destruct (Popen os wsgw_start); reflexivity.
Qed.

Lemma start_pbgw_eq os s :
  start_pbgw os s =
  match Popen os (pbgw_start (com_port s)) with
  | Raise e => (Raise e, s, [EPopen (pbgw_start (com_port s)) (win32 os)])
  | Ok n => (Ok tt, set_proc_hwg (Some n) s,
             [EPopen (pbgw_start (com_port s)) (win32 os);
              EPrint "Picoboard Gateway started."])
  end.
Proof.
  unfold start_pbgw, spawn, bind, emit, modify, print, ret, raise, get. simpl.
  destruct (Popen os (pbgw_start (com_port s))); reflexivity.
Qed.

(** [startup], with the monad unfolded. *)
Lemma startup_eq os s :
  startup os s =
  match start_backplane os s with
  | (Raise e, s1, t1) => (Raise e, s1, t1)
  | (Ok _, s1, t1) =>
      match start_wsgw os s1 with
      | (Raise e, s2, t2) => (Raise e, s2, t1 ++ ESleep 1 :: t2)
      | (Ok _, s2, t2) =>
          match start_pbgw os s2 with
          | (r, s3, t3) => (r, s3, t1 ++ ESleep 1 :: t2 ++ t3)
          end
      end
  end.
Proof.
  unfold startup, bind at 1.
  destruct (start_backplane os s) as [[[u|e] s1] t1]; [|reflexivity].
  unfold bind at 1. unfold sleep at 1. unfold emit at 1.
  unfold bind at 1.
  destruct (start_wsgw os s1) as [[[u2|e2] s2] t2]; [|reflexivity].
  destruct (start_pbgw os s2) as [[r s3] t3]. reflexivity.
Qed.

(** ** killall *)

Lemma try_kill_eq os r q mk me s :
  try_kill os r q mk me s = (Ok tt, s, clause_trace os r q mk me).
Proof.
  unfold try_kill, clause_trace, bind, print, emit, ret. simpl.
  destruct (proc_kill os (pid q)); reflexivity.
Qed.

Lemma kill_backplane_eq os b p s :
  kill_backplane os b p s =
  (Ok (fst (bp_clause os s b p)), s, snd (bp_clause os s b p)).
Proof.
  unfold kill_backplane, bp_clause, clause.
  destruct (truthy b); [|reflexivity].
  unfold bind at 1. unfold get at 1.
  destruct (psutil_Process os (proc_bp s)) as [q|e]; [|reflexivity].
  unfold bind. rewrite try_kill_eq. simpl. rewrite app_nil_r. reflexivity.
Qed.

Lemma kill_wsgw_eq os w p s :
  kill_wsgw os w p s =
  (Ok (fst (ws_clause os s w p)), s, snd (ws_clause os s w p)).
Proof.
  unfold kill_wsgw, ws_clause, clause.
  destruct (truthy w); [|reflexivity].
  unfold bind at 1. unfold get at 1.
  destruct (psutil_Process os (proc_awg s)) as [q|e]; [|reflexivity].
  unfold bind. rewrite try_kill_eq. simpl. rewrite app_nil_r. reflexivity.
Qed.

Lemma kill_pbgw_eq os p s :
  kill_pbgw os p s =
  (Ok (fst (pb_clause os s p)), s, snd (pb_clause os s p)).
Proof.
  unfold kill_pbgw, pb_clause, clause.
  destruct (truthy p); [|reflexivity].
  unfold bind at 1. unfold get at 1.
  destruct (psutil_Process os (proc_hwg s)) as [q|e]; [|reflexivity].
  unfold bind. rewrite try_kill_eq. simpl. rewrite app_nil_r. reflexivity.
Qed.

(** [killall] never raises; it sets the flag and runs the three clauses in
    order, each on the [p] the one before left. *)
Lemma killall_eq os b w p s :
  killall os b w p s =
  let s1 := set_stop_event true s in
  let c1 := bp_clause os s b p in
  let c2 := ws_clause os s w (fst c1) in
  let c3 := pb_clause os s (fst c2) in
  (Ok tt, s1, ESet (stop_event s) :: snd c1 ++ snd c2 ++ snd c3).
Proof.
  unfold killall, stop_event_set.
  unfold bind at 1. unfold bind at 1. unfold get at 1. unfold bind at 1.
  unfold emit at 1. unfold modify at 1.
  unfold bind at 1. rewrite kill_backplane_eq.
  unfold bind at 1. rewrite kill_wsgw_eq.
  unfold bind at 1. rewrite kill_pbgw_eq.
  unfold ret. simpl. rewrite app_nil_r. reflexivity.
Qed.

Lemma killall_None os s :
  killall os PyNone PyNone PyNone s =
  (Ok tt, set_stop_event true s, [ESet (stop_event s)]).
Proof. rewrite killall_eq. reflexivity. Qed.

Lemma kills_clause_trace os r r' q mk me :
  kills r (clause_trace os r' q mk me) = if role_eqb r r' then 1%nat else 0%nat.
Proof.
  unfold clause_trace, kills. simpl.
  destruct (role_eqb r r'); destruct (proc_kill os (pid q)); reflexivity.
Qed.

Lemma kills_clause os r r' g tg mk me p :
  (kills r (snd (clause os r' g tg mk me p)) <= if role_eqb r r' then 1 else 0)%nat.
Proof.
  unfold clause.
  destruct (truthy g); [|destruct (role_eqb r r'); unfold kills; simpl; lia].
  destruct (psutil_Process os tg) as [q|e];
    [|destruct (role_eqb r r'); unfold kills; simpl; lia].
  simpl snd. rewrite kills_clause_trace. lia.
Qed.

Lemma clause_no_set os r g tg mk me p e :
  In e (snd (clause os r g tg mk me p)) ->
  spawned [e] = [] /\ is_transition e = false /\ (forall b, e <> ESet b) /\ e <> EStart.
Proof.
  unfold clause.
  destruct (truthy g); [|simpl; contradiction].
  destruct (psutil_Process os tg) as [q|err]; [|simpl; contradiction].
  unfold clause_trace. simpl.
  destruct (proc_kill os (pid q)); simpl;
    intuition (subst; simpl; try reflexivity; try discriminate).
Qed.

(** ** Bookkeeping of the stop event *)

Lemma flag_kept_app s s1 s2 t1 t2 :
  flag_kept s s1 t1 -> flag_kept s1 s2 t2 -> flag_kept s s2 (t1 ++ t2).
Proof.
  intros [[Ha [Hb Hc]] [Hm1 [Hs1 Ht1]]] [[Ha' [Hb' Hc']] [Hm2 [Hs2 Ht2]]].
  repeat split; try congruence.
  - auto.
  - intros [b Hin]. apply in_app_or in Hin. destruct Hin as [Hin|Hin].
    + apply Hm2, Hs1. exists b. exact Hin.
    + apply Hs2. exists b. exact Hin.
  - rewrite transitions_app, Ht1, Ht2.
    destruct (stop_event s) eqn:E0.
    + rewrite (Hm1 eq_refl). reflexivity.
    + destruct (stop_event s1) eqn:E1.
      * rewrite (Hm2 eq_refl). reflexivity.
      * destruct (stop_event s2); reflexivity.
Qed.

Lemma transitions_none t :
  (forall e, In e t -> forall b, e <> ESet b) -> transitions t = 0%nat.
Proof.
  induction t as [|e t IH]; intros H; [reflexivity|].
  unfold transitions in *. simpl.
  destruct (is_transition e) eqn:E.
  - destruct e; try discriminate. destruct was_set; try discriminate.
    exfalso. eapply H; [left; reflexivity | reflexivity].
  - apply IH. intros e' He'. apply H. right. exact He'.
Qed.

Lemma flag_kept_same s t :
  (forall e, In e t -> forall b, e <> ESet b) -> flag_kept s s t.
Proof.
  intros H. repeat split; auto.
  - intros [b Hin]. exfalso. eapply H; [exact Hin | reflexivity].
  - rewrite (transitions_none t H). destruct (stop_event s); reflexivity.
Qed.

Lemma flag_kept_set s :
  flag_kept s (set_stop_event true s) [ESet (stop_event s)].
Proof.
  repeat split; auto.
  unfold transitions. simpl. destruct (stop_event s); reflexivity.
Qed.

Lemma harmless_kills r t : Forall harmless t -> kills r t = 0%nat.
Proof.
  induction 1 as [|e t He _ IH]; [reflexivity|].
  unfold kills in *. simpl. destruct e; simpl in *; try contradiction; exact IH.
Qed.

Lemma harmless_spawned t : Forall harmless t -> spawned t = [].
Proof.
  induction 1 as [|e t He _ IH]; [reflexivity|].
  destruct e; simpl in *; try contradiction; exact IH.
Qed.

Lemma harmless_not_started t : Forall harmless t -> ~ In EStart t.
Proof.
  intros H Hin. rewrite Forall_forall in H. exact (H _ Hin).
Qed.

(** [killall] and the stop event. *)
Lemma killall_flag_kept os b w p s :
  flag_kept s (snd (fst (killall os b w p s))) (snd (killall os b w p s)).
Proof.
  rewrite killall_eq. cbv zeta. simpl fst. simpl snd.
  change (ESet (stop_event s) :: ?t) with ([ESet (stop_event s)] ++ t).
  eapply flag_kept_app; [apply flag_kept_set|].
  apply flag_kept_same.
  intros e Hin. unfold bp_clause, ws_clause, pb_clause in Hin.
  apply in_app_or in Hin. destruct Hin as [Hin|Hin];
    [|apply in_app_or in Hin; destruct Hin as [Hin|Hin]];
    apply clause_no_set in Hin; tauto.
Qed.

(** One call of [killall] kills each role at most once. *)
Lemma killall_kills os b w p s r :
  (kills r (snd (killall os b w p s)) <= 1)%nat.
Proof.
  rewrite killall_eq. cbv zeta. simpl snd.
  change (ESet (stop_event s) :: ?t) with ([ESet (stop_event s)] ++ t).
  rewrite !kills_app.
  pose proof (kills_clause os r Backplane b (proc_bp s)
                "killing backplane" "exception in killing backplane" p) as H1.
  pose proof (kills_clause os r WebsocketGateway w (proc_awg s)
                "killing websocket gateway" "exception in killing awg"
                (fst (bp_clause os s b p))) as H2.
  pose proof (kills_clause os r PicoboardGateway
                (fst (ws_clause os s w (fst (bp_clause os s b p)))) (proc_hwg s)
                "killing picoboard gateway" "exception in killing pbgw"
                (fst (ws_clause os s w (fst (bp_clause os s b p))))) as H3.
  unfold bp_clause, ws_clause, pb_clause in *.
  change (kills r [ESet (stop_event s)]) with 0%nat.
  destruct r; cbn [role_eqb] in H1, H2, H3; lia.
Qed.

Lemma killall_spawned os b w p s :
  spawned (snd (killall os b w p s)) = [] /\ ~ In EStart (snd (killall os b w p s)).
Proof.
  rewrite killall_eq. cbv zeta. simpl snd.
  assert (H : forall e, In e (snd (bp_clause os s b p) ++
                              snd (ws_clause os s w (fst (bp_clause os s b p))) ++
                              snd (pb_clause os s (fst (ws_clause os s w (fst (bp_clause os s b p))))))
              -> spawned [e] = [] /\ e <> EStart).
  { intros e Hin. unfold bp_clause, ws_clause, pb_clause in Hin.
    apply in_app_or in Hin. destruct Hin as [Hin|Hin];
      [|apply in_app_or in Hin; destruct Hin as [Hin|Hin]];
      apply clause_no_set in Hin; tauto. }
  revert H. generalize (snd (bp_clause os s b p) ++
                              snd (ws_clause os s w (fst (bp_clause os s b p))) ++
                              snd (pb_clause os s (fst (ws_clause os s w (fst (bp_clause os s b p)))))).
  intros t H. split.
  - simpl. induction t as [|e t IH]; [reflexivity|].
    change (e :: t) with ([e] ++ t). rewrite spawned_app.
    rewrite (proj1 (H e (or_introl eq_refl))). simpl. apply IH.
    intros e' He'. apply H. right. exact He'.
  - intros [Hd|Hin]; [discriminate|]. apply H in Hin. tauto.
Qed.

(** ** The monitor thread *)

Lemma check_pid_eq os o s :
  exists pr,
    Forall harmless pr /\ (forall e, In e pr -> forall b, e <> ESet b) /\
    check_pid os o s =
    if unhealthy os o
    then (Ok tt, set_stop_event true s, pr ++ [ESet (stop_event s)])
    else (Ok tt, s, []).
Proof.
  unfold check_pid, unhealthy.
  destruct (psutil_Process os o) as [q|e].
  - destruct (proc_status os (pid q)) as [st|e].
    + destruct (negb (status_in st valid_status)).
      * unfold bind at 1. unfold get at 1. unfold bind at 1. unfold get at 1.
        unfold bind at 1.
        destruct (pid_eqb o (proc_bp s)); [|destruct (pid_eqb o (proc_awg s))];
          unfold print2, print, emit; rewrite killall_None; simpl;
          eexists [EPrint _]; (split; [repeat constructor|split; [|reflexivity]];
          intros e [<-|[]] b; discriminate).
      * exists []. repeat split; [constructor | intros e []].
    + exists []. rewrite killall_None. repeat split; [constructor | intros e' []].
  - exists []. rewrite killall_None. repeat split; [constructor | intros e' []].
Qed.

(** A pass over [pid_list]: nothing is spawned or killed, and the flag goes
    up exactly when some entry is unhealthy. *)
Lemma for_each_check os l : forall s,
  exists t,
    for_each (check_pid os) l s =
      (Ok tt, (if existsb (unhealthy os) l then set_stop_event true s else s), t) /\
    Forall harmless t /\
    flag_kept s (if existsb (unhealthy os) l then set_stop_event true s else s) t.
Proof.
  induction l as [|o l IH]; intros s.
  - exists []. split; [reflexivity|]. split; [constructor|].
    apply flag_kept_same. intros e [].
  - simpl for_each. simpl existsb.
    destruct (check_pid_eq os o s) as [pr [Hh [Hns Heq]]].
    unfold bind. rewrite Heq.
    destruct (unhealthy os o).
    + destruct (IH (set_stop_event true s)) as [t [Ht [Hht Hfk]]].
      rewrite Ht. simpl orb.
      assert (Hs : (if existsb (unhealthy os) l
                    then set_stop_event true (set_stop_event true s)
                    else set_stop_event true s) = set_stop_event true s).
      { destruct (existsb (unhealthy os) l); reflexivity. }
      rewrite Hs in *.
      eexists. split; [reflexivity|]. split.
      * apply Forall_app. split; [|exact Hht].
        apply Forall_app. split; [exact Hh | repeat constructor].
      * eapply flag_kept_app; [|exact Hfk].
        eapply flag_kept_app; [apply flag_kept_same; exact Hns | apply flag_kept_set].
    + destruct (IH s) as [t [Ht [Hht Hfk]]].
      rewrite Ht. simpl orb.
      eexists. split; [reflexivity|]. split; [exact Hht | exact Hfk].
Qed.

Lemma advisory_eq (c : bool) line s :
  (if c then print line else ret tt) s = (Ok tt, s, if c then [EPrint line] else []).
Proof. destruct c; reflexivity. Qed.

Lemma run_prologue_eq s :
  run_prologue s =
  (Ok (pid_list_of s), s,
   (if negb (known (proc_bp s)) then [EPrint "backplane not up"] else []) ++
   (if negb (known (proc_bp s)) then [EPrint "wsgw not up"] else []) ++
   (if negb (known (proc_hwg s)) then [EPrint "pbgw not up"] else [])).
Proof.
  unfold run_prologue, bind, get. cbv beta iota.
  rewrite advisory_eq. cbv beta iota.
  rewrite advisory_eq. cbv beta iota.
  rewrite advisory_eq. cbv beta iota.
  unfold ret, pid_list_of. simpl. rewrite !app_nil_r. reflexivity.
Qed.

Lemma monitor_cycle_eq os l s :
  exists t,
    monitor_cycle os l s =
      (Ok tt, (if existsb (unhealthy os) l then set_stop_event true s else s), t) /\
    Forall harmless t /\
    flag_kept s (if existsb (unhealthy os) l then set_stop_event true s else s) t.
Proof.
  destruct (for_each_check os l s) as [t [Heq [Hh Hfk]]].
  exists (t ++ [ESleep (3 # 10)]). unfold monitor_cycle, bind. rewrite Heq.
  split; [reflexivity|]. split.
  - apply Forall_app. split; [exact Hh | repeat constructor].
  - eapply flag_kept_app; [exact Hfk|].
    apply flag_kept_same. intros e [<-|[]] b. discriminate.
Qed.

(** A turn of the monitor thread never raises, spawns or kills. *)
Lemma monitor_step_spec os m s :
  exists m' s' t,
    monitor_step os m s = (Ok m', s', t) /\
    Forall harmless t /\ flag_kept s s' t /\
    (forall l, m = Looping l -> stop_event s = false ->
       m' = Looping l /\
       s' = if existsb (unhealthy os) l then set_stop_event true s else s) /\
    (stop_event s = true -> s' = s).
Proof.
  destruct m as [|l|]; simpl.
  - unfold bind. rewrite run_prologue_eq. simpl.
    eexists _, s, _. split; [reflexivity|].
    assert (Hp : forall e,
               In e (((if negb (known (proc_bp s)) then [EPrint "backplane not up"] else []) ++
                      (if negb (known (proc_bp s)) then [EPrint "wsgw not up"] else []) ++
                      (if negb (known (proc_hwg s)) then [EPrint "pbgw not up"] else [])) ++ [])
               -> exists line, e = EPrint line).
    { intros e. destruct (negb (known (proc_bp s)));
        destruct (negb (known (proc_hwg s))); simpl;
        intuition (subst; eauto). }
    split; [|split; [|split]].
    + apply Forall_forall. intros e He. destruct (Hp e He) as [line ->]. exact I.
    + apply flag_kept_same. intros e He b. destruct (Hp e He) as [line ->]. discriminate.
    + intros l Hl. discriminate.
    + reflexivity.
  - unfold bind at 1. unfold get at 1.
    destruct (stop_event s) eqn:Hs.
    + exists Finished, s, []. split; [reflexivity|]. split; [constructor|].
      split; [apply flag_kept_same; intros e []|].
      split; [intros l' _ Hf; discriminate | reflexivity].
    + destruct (monitor_cycle_eq os l s) as [t [Heq [Hh Hfk]]].
      unfold bind. rewrite Heq. simpl.
      eexists _, _, _. split; [reflexivity|].
      rewrite !app_nil_r.
      split; [exact Hh|]. split; [exact Hfk|].
      split; [|intros Hf; discriminate].
      intros l' Hl _. inversion Hl; subst. auto.
  - exists Finished, s, []. split; [reflexivity|]. split; [constructor|].
    split; [apply flag_kept_same; intros e []|].
    split; [intros l Hl; discriminate | reflexivity].
Qed.

(** ** The wait loop *)

Lemma main_tick_eq i s :
  main_tick (in_sleep i) s =
  if stop_event s then (Raise (SystemExit 0), s, [EPrint error_line])
  else if i then (Raise (SystemExit 0), s, [ESleep (1 # 100); EPrint signal_line])
  else (Ok tt, s, [ESleep (1 # 100)]).
Proof.
  destruct i; unfold in_sleep, main_tick, try_except, signal_handler, bind, get,
    print, sleep, emit, raise, ret, is_KeyboardInterrupt;
    destruct (stop_event s); reflexivity.
Qed.

Lemma main_tick_OutsideTry s :
  main_tick OutsideTry s = (Raise KeyboardInterrupt, s, [EPrint signal_line]).
Proof. reflexivity. Qed.

Lemma main_tick_spec i s :
  exists r t,
    main_tick (in_sleep i) s = (r, s, t) /\ Forall harmless t /\ flag_kept s s t /\
    (r = Ok tt \/ r = Raise (SystemExit 0)) /\
    (r = Raise (SystemExit 0) ->
       In (EPrint error_line) t \/ In (EPrint signal_line) t).
Proof.
  rewrite main_tick_eq.
  destruct (stop_event s); [|destruct i];
    eexists _, _; (split; [reflexivity|]);
    (split; [repeat constructor|]);
    (split; [apply flag_kept_same; simpl; intros e He b;
             intuition (subst; discriminate)|]);
    (split; [auto|]); simpl; intros H; try discriminate; auto.
Qed.

(** A pass of the wait loop, wherever the signal finds it. *)
Lemma main_turn_spec sg s :
  exists r t,
    main_tick sg s = (r, s, t) /\ Forall harmless t /\ flag_kept s s t /\
    (r = Ok tt \/
     (r = Raise (SystemExit 0) /\
      (In (EPrint error_line) t \/ In (EPrint signal_line) t)) \/
     (r = Raise KeyboardInterrupt /\ sg = OutsideTry /\ In (EPrint signal_line) t)).
Proof.
  destruct sg.
  - destruct (main_tick_spec false s) as [r [t [Heq [Hh [Hfk [Hr Hl]]]]]].
    exists r, t. split; [exact Heq|]. split; [exact Hh|]. split; [exact Hfk|].
    destruct Hr as [-> | ->]; [left; reflexivity | right; left; auto].
  - rewrite main_tick_OutsideTry. eexists _, _. split; [reflexivity|].
    split; [repeat constructor|].
    split; [apply flag_kept_same; intros e [<-|[]] b; discriminate|].
    right. right. simpl. auto.
  - destruct (main_tick_spec true s) as [r [t [Heq [Hh [Hfk [Hr Hl]]]]]].
    exists r, t. split; [exact Heq|]. split; [exact Hh|]. split; [exact Hfk|].
    destruct Hr as [-> | ->]; [left; reflexivity | right; left; auto].
Qed.

Lemma ended_later st rest s' t1 t2 out :
  ended rest s' t2 out -> ended (st :: rest) s' (t1 ++ t2) out.
Proof.
  intros [Hs [[Ho Hl]|[Ho [Hl [os Hin]]]]]; split; try exact Hs.
  - left. split; [exact Ho|].
    destruct Hl; [left|right]; apply in_or_app; right; assumption.
  - right. split; [exact Ho|]. split; [apply in_or_app; right; exact Hl|].
    exists os. right. exact Hin.
Qed.

(** A turn of the main thread inside the run. *)
Lemma main_turn_in_loop h os sg rest m s o s' t
    (IH : forall m s o s' t,
        wait_loop h rest m s = (o, s', t) ->
        flag_kept s s' t /\
        (forall r, kills r t <= 1)%nat /\
        spawned t = [] /\ ~ In EStart t /\
        (forall out, o = Some out -> ended rest s' t out)) (st : step) :
  (sg = OutsideTry -> st = MainSignal os) ->
  match main_tick sg s with
  | (Ok _, s1, t1) =>
      match wait_loop h rest m s1 with
      | (o, s2, t2) => (o, s2, t1 ++ t2)
      end
  | (Raise e, s1, t1) =>
      match run_hook os h s1 with
      | (_, s2, t2) => (Some (outcome_of e), s2, t1 ++ t2)
      end
  end = (o, s', t) ->
  flag_kept s s' t /\
  (forall r, kills r t <= 1)%nat /\
  spawned t = [] /\ ~ In EStart t /\
  (forall out, o = Some out -> ended (st :: rest) s' t out).
Proof.
  intros Hsg H.
  destruct (main_turn_spec sg s) as [r [t1 [Heq [Hh [Hfk Hr]]]]].
  rewrite Heq in H.
  assert (Hcont : r = Ok tt ->
            flag_kept s s' t /\ (forall r, kills r t <= 1)%nat /\
            spawned t = [] /\ ~ In EStart t /\
            (forall out, o = Some out -> ended (st :: rest) s' t out)).
  { intros ->.
    destruct (wait_loop h rest m s) as [[o2 s2] t2] eqn:Hrest.
    inversion H; subst. apply IH in Hrest.
    destruct Hrest as [Hfk2 [Hk [Hsp [Hst Hout]]]].
    split; [eapply flag_kept_app; eassumption|].
    split; [intros r; rewrite kills_app, (harmless_kills r t1 Hh); apply Hk|].
    split; [rewrite spawned_app, (harmless_spawned t1 Hh); exact Hsp|].
    split.
    - intros Hin. apply in_app_or in Hin. destruct Hin as [Hin|Hin];
        [exact (harmless_not_started t1 Hh Hin) | exact (Hst Hin)].
    - intros out Ho. apply ended_later. exact (Hout out Ho). }
  assert (Hexit : forall e, r = Raise e ->
            (e = SystemExit 0 /\
             (In (EPrint error_line) t1 \/ In (EPrint signal_line) t1)) \/
            (e = KeyboardInterrupt /\ sg = OutsideTry /\ In (EPrint signal_line) t1) ->
            flag_kept s s' t /\ (forall r, kills r t <= 1)%nat /\
            spawned t = [] /\ ~ In EStart t /\
            (forall out, o = Some out -> ended (st :: rest) s' t out)).
  { intros e -> He.
    destruct h as [[b w] p]. unfold run_hook in H.
    pose proof (killall_flag_kept os b w p s) as Hfk2.
    pose proof (killall_kills os b w p s) as Hk.
    pose proof (killall_spawned os b w p s) as [Hsp Hst].
    pose proof (killall_eq os b w p s) as Hke.
    destruct (killall os b w p s) as [[r2 s2] t2].
    simpl in Hfk2, Hk, Hsp, Hst.
    inversion H; subst.
    split; [eapply flag_kept_app; eassumption|].
    split; [intros r; rewrite kills_app, (harmless_kills r t1 Hh); apply Hk|].
    split; [rewrite spawned_app, (harmless_spawned t1 Hh); exact Hsp|].
    split.
    - intros Hin. apply in_app_or in Hin. destruct Hin as [Hin|Hin];
        [exact (harmless_not_started t1 Hh Hin) | exact (Hst Hin)].
    - intros out Ho. inversion Ho; subst. split.
      + cbv zeta in Hke. inversion Hke; subst. reflexivity.
      + destruct He as [[-> Hl]|[-> [Hs Hl]]].
        * left. split; [reflexivity|].
          destruct Hl; [left|right]; apply in_or_app; left; assumption.
        * right. split; [reflexivity|].
          split; [apply in_or_app; left; exact Hl|].
          exists os. left. exact (Hsg Hs). }
  destruct Hr as [Hr|[[Hr Hl]|[Hr [Hs Hl]]]].
  - exact (Hcont Hr).
  - apply (Hexit _ Hr). left. auto.
  - apply (Hexit _ Hr). right. auto.
Qed.

(** Every run of the wait loop: the stop event is kept in order, no role is
    killed twice, nothing is spawned, and a run that ends has ended as
    [ended] says. *)
Lemma wait_loop_spec h sched : forall m s o s' t,
  wait_loop h sched m s = (o, s', t) ->
  flag_kept s s' t /\
  (forall r, kills r t <= 1)%nat /\
  spawned t = [] /\ ~ In EStart t /\
  (forall out, o = Some out -> ended sched s' t out).
Proof.
  induction sched as [|st rest IH]; intros m s o s' t H.
  - inversion H; subst. split; [apply flag_kept_same; intros e []|].
    split; [intros r; unfold kills; simpl; lia|].
    split; [reflexivity|]. split; [intros []|]. intros out Ho. discriminate.
  - destruct st as [os|os i|os]; cbn [wait_loop] in H.
    + destruct (monitor_step_spec os m s) as [m' [s1 [t1 [Heq [Hh [Hfk _]]]]]].
      rewrite Heq in H.
      destruct (wait_loop h rest m' s1) as [[o2 s2] t2] eqn:Hrest.
      inversion H; subst. apply IH in Hrest.
      destruct Hrest as [Hfk2 [Hk [Hsp [Hst Hout]]]].
      split; [eapply flag_kept_app; eassumption|].
      split; [intros r; rewrite kills_app, (harmless_kills r t1 Hh); apply Hk|].
      split; [rewrite spawned_app, (harmless_spawned t1 Hh); exact Hsp|].
      split.
      * intros Hin. apply in_app_or in Hin. destruct Hin as [Hin|Hin];
          [exact (harmless_not_started t1 Hh Hin) | exact (Hst Hin)].
      * intros out Ho. apply ended_later. exact (Hout out Ho).
    + eapply (main_turn_in_loop h os (in_sleep i) rest m s o s' t IH);
        [|exact H].
      destruct i; discriminate.
    + eapply (main_turn_in_loop h os OutsideTry rest m s o s' t IH);
        [|exact H].
      reflexivity.
Qed.

(** ** Start-up: the registry and the backplane *)

(** C6 as the specification states it fails: with two processes called
    [backplane], pids 10 and 20 in this order, the scan leaves 20 in
    [proc_bp], not the first match 10. *)
Lemma scan_does_not_return_first_match :
  first_match os_two_backplanes = Some 10 /\
  proc_bp (snd (fst (start_backplane os_two_backplanes (fresh None)))) = Some 20 /\
  proc_bp (snd (fst (start_backplane os_two_backplanes (fresh None))))
    <> first_match os_two_backplanes.
Proof.
  repeat split; try reflexivity. vm_compute. discriminate.
Qed.

(** C6, amended.  When several visible processes are called [backplane] and
    the scan completes, [start_backplane] adopts the identifier of the last
    of them in enumeration order, and spawns nothing. *)
Theorem scan_returns_last_match :
  forall (os : OS) (s s' : S3P) (t : trace) (m : Z),
    start_backplane os s = (Ok tt, s', t) ->
    last_match os = Some m ->
    proc_bp s' = Some m /\ backplane_exists s' = true /\ spawned t = [].
Proof.
  intros os s s' t m H Hm.
  rewrite start_backplane_eq in H.
  destruct (scan os None (pids os) s) as [[[u|e] s1] t1] eqn:Hscan; [|discriminate].
  destruct u.
  pose proof (scan_adopts os (pids os) None s s1 t1) as Ha.
  unfold last_match in Hm. rewrite Hm in Ha.
  destruct Ha as [Hbp Hex]; [intros q Hq; discriminate | exact Hscan |].
  rewrite Hex in H. inversion H; subst.
  split; [exact Hbp|]. split; [exact Hex|].
  rewrite app_nil_r.
  pose proof (scan_spawned os (pids os) None s) as Hsp.
  rewrite Hscan in Hsp. exact Hsp.
Qed.

Lemma scan_returns_last_match_witness :
  last_match os_two_backplanes = Some 20 /\
  proc_bp (snd (fst (start_backplane os_two_backplanes (fresh None)))) = Some 20.
Proof.
  split; [reflexivity|].
  apply (scan_returns_last_match os_two_backplanes (fresh None)
           (snd (fst (start_backplane os_two_backplanes (fresh None))))
           (snd (start_backplane os_two_backplanes (fresh None))) 20);
    reflexivity.
Defined.

(** C7 fails on the code.  When the first enumerated process is gone at
    lookup time, [p] is still [None] and [p.name()] raises
    [AttributeError]: the scan, and with it the constructor, ends there.
    When a process goes between the lookup and [p.name()], the psutil
    exception leaves the scan as well. *)
Theorem scan_fails_when_process_vanishes :
  start_backplane os_first_vanished (fresh None) = (Raise AttributeError, fresh None, []) /\
  fst (fst (S3P_init os_first_vanished None [])) = Some (Crashed AttributeError) /\
  fst (fst (start_backplane os_name_race (fresh None))) =
    Raise (PsutilError NoSuchProcess).
Proof. repeat split. Qed.

(** C5.  When the enumeration holds a visible process called [backplane],
    no run of the supervisor ever calls the launcher for the backplane, and
    a [start_backplane] that returns has adopted the identifier of such a
    process. *)
Theorem existing_backplane_is_adopted_not_spawned :
  forall (os : OS) (cp : option string) (m : Z),
    In m (pids os) -> matching os m = true ->
    (forall sched, ~ In backplane_cmd (spawned (snd (S3P_init os cp sched)))) /\
    (forall s' t, start_backplane os (fresh cp) = (Ok tt, s', t) ->
       spawned t = [] /\ backplane_exists s' = true /\
       exists m', proc_bp s' = Some m' /\ In m' (pids os) /\ matching os m' = true).
Proof.
  intros os cp m Hin Hm.
  pose proof (scan_found os m (pids os) None (fresh cp) Hin Hm) as Hf.
  pose proof (scan_spawned os (pids os) None (fresh cp)) as Hsp.
  assert (Hbp : forall r s' t, start_backplane os (fresh cp) = (r, s', t) ->
                spawned t = [] /\ (r = Ok tt -> backplane_exists s' = true /\
                  exists m', proc_bp s' = Some m' /\ In m' (pids os) /\
                             matching os m' = true)).
  { intros r s' t H. rewrite start_backplane_eq in H.
    destruct (scan os None (pids os) (fresh cp)) as [[[u|e] s1] t1] eqn:Hscan.
    - rewrite Hf in H. inversion H; subst. rewrite app_nil_r.
      split; [exact Hsp|]. intros _. split; [exact Hf|].
      destruct u.
      pose proof (scan_adopts os (pids os) None (fresh cp) s' t1) as Ha.
      destruct (find (matching os) (rev (pids os))) as [m'|] eqn:Hfind.
      + destruct Ha as [Ha _]; [intros q Hq; discriminate | exact Hscan |].
        exists m'. split; [exact Ha|].
        apply find_some in Hfind. destruct Hfind as [Hi Hmm].
        split; [apply in_rev; exact Hi | exact Hmm].
      + destruct Ha as [_ Ha]; [intros q Hq; discriminate | exact Hscan |].
        simpl in Ha. congruence.
    - inversion H; subst. split; [exact Hsp|]. intros Hd. discriminate. }
  split.
  - intros sched. unfold S3P_init. rewrite startup_eq.
    destruct (start_backplane os (fresh cp)) as [[[u|e] s1] t1] eqn:Hsb.
    + destruct (Hbp _ _ _ eq_refl) as [Hs1 _].
      rewrite start_wsgw_eq.
      destruct (Popen os wsgw_start) as [n|e].
      * rewrite start_pbgw_eq.
        assert (Hpb : forall c, backplane_cmd <> pbgw_start c).
        { intros c. unfold pbgw_start, backplane_cmd.
          destruct (truthy_str c); discriminate. }
        destruct (Popen os (pbgw_start (com_port (set_proc_awg (Some n) s1)))) as [k|e].
        -- destruct (wait_loop _ sched NotStarted _) as [[o s2] t2] eqn:Hw.
           apply wait_loop_spec in Hw. destruct Hw as [_ [_ [Hw _]]].
           simpl. rewrite !spawned_app, Hs1. simpl. rewrite Hw. simpl.
           intros [Hd|[Hd|[]]]; [discriminate | exact (Hpb _ (eq_sym Hd))].
        -- simpl. rewrite !spawned_app, Hs1. simpl.
           intros [Hd|[Hd|[]]]; [discriminate | exact (Hpb _ (eq_sym Hd))].
      * simpl. rewrite !spawned_app, Hs1. simpl.
        intros [Hd|[]]. discriminate.
    + destruct (Hbp _ _ _ eq_refl) as [Hs1 _]. simpl. rewrite Hs1. intros [].
  - intros s' t H. destruct (Hbp _ _ _ H) as [Hs1 Hok].
    split; [exact Hs1|]. exact (Hok eq_refl).
Qed.

Lemma existing_backplane_is_adopted_not_spawned_witness :
  (forall sched, ~ In backplane_cmd (spawned (snd (S3P_init os_boot None sched)))) /\
  proc_bp (snd (fst (start_backplane os_boot (fresh None)))) = Some 100.
Proof.
  pose proof (existing_backplane_is_adopted_not_spawned os_boot None 100
                (or_intror (or_introl eq_refl)) eq_refl) as [H1 H2].
  split; [exact H1 | reflexivity].
Defined.

Lemma scan_com_port os l : forall p s,
  com_port (snd (fst (scan os p l s))) = com_port s.
Proof.
  induction l as [|n rest IH]; intros p s; [reflexivity|].
  rewrite scan_cons.
  destruct (match psutil_Process os (Some n) with Ok q => Some q | Raise _ => p end)
    as [q|]; [|reflexivity].
  destruct (proc_name os (pid q)) as [nm|e]; [|reflexivity].
  destruct (String.eqb nm "backplane"); [|apply IH].
  specialize (IH (Some q) (set_proc_bp (Some (pid q)) (set_backplane_exists true s))).
  destruct (scan os (Some q) rest _) as [[r s2] t2]. exact IH.
Qed.

(** [start_backplane] launches nothing but the backplane, and keeps
    [com_port]. *)
Lemma start_backplane_spawned os s :
  (forall c, In c (spawned (snd (start_backplane os s))) -> c = backplane_cmd) /\
  com_port (snd (fst (start_backplane os s))) = com_port s.
Proof.
  rewrite start_backplane_eq.
  pose proof (scan_spawned os (pids os) None s) as Hsp.
  pose proof (scan_com_port os (pids os) None s) as Hcp.
  destruct (scan os None (pids os) s) as [[[u|e] s1] t1]; simpl in Hsp, Hcp.
  - destruct (backplane_exists s1).
    + simpl. rewrite spawned_app, Hsp. simpl. split; [intros c []|exact Hcp].
    + destruct (Popen os backplane_cmd) as [n|e]; simpl;
        rewrite spawned_app, Hsp; simpl;
        (split; [intros c [<-|[]]; reflexivity | exact Hcp]).
  - simpl. rewrite Hsp. split; [intros c []|exact Hcp].
Qed.

(** C9.  A start-up that succeeds is: [start_backplane] (which discovers or
    spawns the backplane and launches no gateway), then [time.sleep(1)],
    then the launch of the websocket gateway, then the launch of the device
    gateway.  Both gateway launches come after the delay in the trace. *)
Theorem startup_order :
  forall (os : OS) (s s' : S3P) (t : trace),
    startup os s = (Ok tt, s', t) ->
    exists s1 t_bp,
      start_backplane os s = (Ok tt, s1, t_bp) /\
      (forall c, In c (spawned t_bp) -> c = backplane_cmd) /\
      t = t_bp ++ gateways_after_delay os (com_port s) /\
      spawned t = spawned t_bp ++ [wsgw_start; pbgw_start (com_port s)].
Proof.
  intros os s s' t H.
  rewrite startup_eq in H.
  pose proof (start_backplane_spawned os s) as [Hsp Hcp].
  destruct (start_backplane os s) as [[[u|e] s1] t1]; [|discriminate].
  simpl in Hsp, Hcp. destruct u.
  rewrite start_wsgw_eq in H.
  destruct (Popen os wsgw_start) as [n|e]; [|discriminate].
  rewrite start_pbgw_eq in H. simpl com_port in H. rewrite Hcp in H.
  destruct (Popen os (pbgw_start (com_port s))) as [k|e]; [|discriminate].
  inversion H; subst.
  exists s1, t1. split; [reflexivity|]. split; [exact Hsp|].
  split; [reflexivity|].
  rewrite spawned_app. reflexivity.
Qed.

Lemma startup_order_witness :
  exists s1 t_bp,
    start_backplane os_boot (fresh (Some "COM3")) = (Ok tt, s1, t_bp) /\
    (forall c, In c (spawned t_bp) -> c = backplane_cmd) /\
    snd (startup os_boot (fresh (Some "COM3"))) =
      t_bp ++ gateways_after_delay os_boot (Some "COM3") /\
    spawned (snd (startup os_boot (fresh (Some "COM3")))) =
      spawned t_bp ++ [wsgw_start; pbgw_start (Some "COM3")].
Proof.
  apply (startup_order os_boot (fresh (Some "COM3"))
           (snd (fst (startup os_boot (fresh (Some "COM3")))))).
  reflexivity.
Defined.

(** ** The advisory lines of the monitor *)


(** ** killall and its local [p] *)

Lemma clause_keeps_truthy os r g tg mk me p :
  truthy p = true -> truthy (fst (clause os r g tg mk me p)) = true.
Proof.
  intros H. unfold clause.
  destruct (truthy g); [|exact H].
  destruct (psutil_Process os tg); [reflexivity | exact H].
Qed.

(** ** Shutdown *)

(** Monitor turns that come after the flag went up change nothing. *)
Lemma monitors_after_stop h oss : forall m s rest,
  stop_event s = true ->
  exists m' t1,
    Forall harmless t1 /\
    wait_loop h (map MonitorStep oss ++ rest) m s =
    (let '(o, s2, t2) := wait_loop h rest m' s in (o, s2, t1 ++ t2)).
Proof.
  induction oss as [|os oss IH]; intros m s rest Hs.
  - exists m, []. split; [constructor|]. simpl.
    destruct (wait_loop h rest m s) as [[o s2] t2]. reflexivity.
  - destruct (monitor_step_spec os m s) as [m1 [s1 [t1 [Heq [Hh [_ [_ Hsame]]]]]]].
    rewrite (Hsame Hs) in Heq.
    destruct (IH m1 s rest Hs) as [m' [t2 [Hh2 Heq2]]].
    exists m', (t1 ++ t2). split; [apply Forall_app; auto|].
    simpl. rewrite Heq, Heq2.
    destruct (wait_loop h rest m' s) as [[o s2] t3].
    rewrite app_assoc. reflexivity.
Qed.

(** The exit hook with the arguments of line 63 goes through all three
    clauses: every role with a known identifier is looked up, and killed if
    the lookup succeeds, whatever [p.kill()] did for the others. *)
Lemma hook_attempts os s s1 r q :
  same_procs s s1 ->
  known (proc_of r s) = true ->
  psutil_Process os (proc_of r s) = Ok q ->
  In (EKill r q) (snd (run_hook os (hook_of s) s1)).
Proof.
  intros [Hb [Hw Hh]] Hk Hq.
  unfold run_hook, hook_of. rewrite killall_eq. cbv zeta. simpl snd.
  unfold bp_clause, ws_clause, pb_clause. rewrite Hb, Hw, Hh.
  right. destruct r; simpl in Hk, Hq.
  - apply in_or_app. left. unfold clause. unfold known in Hk. rewrite Hk, Hq.
    simpl. right. left. reflexivity.
  - apply in_or_app. right. apply in_or_app. left.
    unfold clause at 1. unfold known in Hk. rewrite Hk, Hq.
    simpl. right. left. reflexivity.
  - apply in_or_app. right. apply in_or_app. right.
    unfold clause at 1.
    rewrite clause_keeps_truthy
      by (apply clause_keeps_truthy; exact Hk).
    rewrite Hq. simpl. right. left. reflexivity.
Qed.

(** C1.  Take a supervisor in its wait loop with the flag clear, and a turn
    of the monitor in which some entry of [pid_list] has a status outside
    [valid_status] or cannot be queried.  The monitor sets the stop event
    (its own call of [killall] gets three [None]s and kills nothing); at its
    next turn the wait loop leaves with [sys.exit(0)], and the exit hook
    [killall(proc_bp, proc_awg, proc_hwg)] looks up every role that has a
    known identifier and calls [kill()] on each one it finds -- whatever
    [kill()] answers for the others, since [os_x] is arbitrary. *)
Theorem monitor_detection_kills_every_known_process :
  forall (os_m : OS) (oss : list OS) (os_x : OS) (i : bool) (post : list step)
         (s : S3P),
    stop_event s = false ->
    existsb (unhealthy os_m) (pid_list_of s) = true ->
    exists s' t,
      wait_loop (hook_of s)
        (MonitorStep os_m :: map MonitorStep oss ++ MainTick os_x i :: post)
        (Looping (pid_list_of s)) s = (Some (Exited 0), s', t) /\
      stop_event s' = true /\
      forall r q,
        known (proc_of r s) = true ->
        psutil_Process os_x (proc_of r s) = Ok q ->
        In (EKill r q) t.
Proof.
  intros os_m oss os_x i post s Hs Hu.
  destruct (monitor_step_spec os_m (Looping (pid_list_of s)) s)
    as [m1 [s1 [t1 [Heq [_ [_ [Hloop _]]]]]]].
  destruct (Hloop _ eq_refl Hs) as [-> Hs1]. rewrite Hu in Hs1. subst s1.
  destruct (monitors_after_stop (hook_of s) oss (Looping (pid_list_of s))
              (set_stop_event true s) (MainTick os_x i :: post) eq_refl)
    as [m' [t2 [_ Heq2]]].
  cbn [wait_loop]. rewrite Heq.
  rewrite Heq2. cbn [wait_loop]. rewrite main_tick_eq. cbn [stop_event set_stop_event].
  pose proof (killall_eq os_x (of_pid (proc_bp s)) (of_pid (proc_awg s))
                (of_pid (proc_hwg s)) (set_stop_event true s)) as Hke.
  pose proof (hook_attempts os_x s (set_stop_event true s)) as Hat.
  unfold run_hook, hook_of in *.
  destruct (killall os_x _ _ _ (set_stop_event true s)) as [[r3 s3] t3].
  cbv zeta in Hke. inversion Hke; subst.
  eexists _, _. split; [reflexivity|]. split; [reflexivity|].
  intros r q Hk Hq.
  apply in_or_app. right. apply in_or_app. right. apply in_or_app. right.
  apply (Hat r q); [repeat split | exact Hk | exact Hq].
Qed.

Lemma monitor_detection_kills_every_known_process_witness :
  exists s' t,
    wait_loop (hook_of s_running)
      [MonitorStep os_zombie; MainTick os_zombie false]
      (Looping (pid_list_of s_running)) s_running = (Some (Exited 0), s', t) /\
    stop_event s' = true /\
    forall r q,
      known (proc_of r s_running) = true ->
      psutil_Process os_zombie (proc_of r s_running) = Ok q ->
      In (EKill r q) t.
Proof.
  apply (monitor_detection_kills_every_known_process os_zombie [] os_zombie false []
           s_running); reflexivity.
Defined.

(** ** The whole run *)

Lemma scan_events os l : forall p s e,
  In e (snd (scan os p l s)) -> e = EPrint "Backplane started.".
Proof.
  induction l as [|n rest IH]; intros p s e; [intros []|].
  rewrite scan_cons.
  destruct (match psutil_Process os (Some n) with Ok q => Some q | Raise _ => p end)
    as [q|]; [|intros []].
  destruct (proc_name os (pid q)) as [nm|err]; [|intros []].
  destruct (String.eqb nm "backplane"); [|apply IH].
  specialize (IH (Some q) (set_proc_bp (Some (pid q)) (set_backplane_exists true s)) e).
  destruct (scan os (Some q) rest _) as [[r s2] t2]. simpl in *.
  intros [<-|Hin]; [reflexivity | exact (IH Hin)].
Qed.

(** The ways [start_backplane] can end. *)
Lemma start_backplane_cases os s :
  match start_backplane os s with
  | (r, s1, t) =>
      com_port s1 = com_port s /\ Forall startup_event t /\
      (forall l, In l (printed t) -> l = "Backplane started.") /\
      match r with
      | Ok _ => spawned t = [] \/
                (spawned t = [backplane_cmd] /\ exists n, Popen os backplane_cmd = Ok n)
      | Raise e => spawned t = [] \/
                   (spawned t = [backplane_cmd] /\ Popen os backplane_cmd = Raise e /\
                    printed t = [])
      end
  end.
Proof.
  rewrite start_backplane_eq.
  pose proof (scan_spawned os (pids os) None s) as Hsp.
  pose proof (scan_com_port os (pids os) None s) as Hcp.
  pose proof (scan_quiet os (pids os) None s) as Hq.
  pose proof (scan_events os (pids os) None s) as Hev.
  destruct (scan os None (pids os) s) as [[[u|e] s1] t1]; simpl in Hsp, Hcp, Hq, Hev.
  - assert (Hst : Forall startup_event t1).
    { apply Forall_forall. intros e He. rewrite (Hev e He). exact I. }
    assert (Hpr : forall l, In l (printed t1) -> l = "Backplane started.").
    { intros l Hl. unfold printed in Hl. apply in_flat_map in Hl.
      destruct Hl as [e [He Hl]]. rewrite (Hev e He) in Hl.
      destruct Hl as [<-|[]]. reflexivity. }
    destruct (backplane_exists s1).
    + rewrite app_nil_r. auto.
    + specialize (Hq eq_refl).
      destruct (Popen os backplane_cmd) as [n|e] eqn:Hp.
      * split; [exact Hcp|]. split; [apply Forall_app; split; [exact Hst|repeat constructor]|].
        split.
        -- intros l. rewrite printed_app, Hq. simpl. intros [<-|[]]. reflexivity.
        -- right. rewrite spawned_app, Hsp. split; [reflexivity|]. exists n. reflexivity.
      * split; [exact Hcp|]. split; [apply Forall_app; split; [exact Hst|repeat constructor]|].
        split.
        -- intros l. rewrite printed_app, Hq. simpl. intros [].
        -- right. rewrite spawned_app, Hsp, printed_app, Hq. auto.
  - split; [exact Hcp|]. split.
    + apply Forall_forall. intros e' He. rewrite (Hev e' He). exact I.
    + split; [|left; exact Hsp].
      intros l Hl. unfold printed in Hl. apply in_flat_map in Hl.
      destruct Hl as [e' [He Hl]]. rewrite (Hev e' He) in Hl.
      destruct Hl as [<-|[]]. reflexivity.
Qed.

Lemma startup_events os s : Forall startup_event (snd (startup os s)).
Proof.
  rewrite startup_eq.
  pose proof (start_backplane_cases os s) as Hc.
  destruct (start_backplane os s) as [[[u|e] s1] t1];
    destruct Hc as [_ [Hst _]]; [|exact Hst].
  rewrite start_wsgw_eq.
  destruct (Popen os wsgw_start) as [n|e].
  - rewrite start_pbgw_eq.
    destruct (Popen os (pbgw_start _)) as [k|e]; simpl;
      (apply Forall_app; split; [exact Hst | repeat constructor]).
  - simpl. apply Forall_app. split; [exact Hst | repeat constructor].
Qed.

Lemma startup_event_facts t :
  Forall startup_event t ->
  transitions t = 0%nat /\ (forall b, ~ In (ESet b) t) /\
  (forall r, kills r t = 0%nat) /\ ~ In EStart t.
Proof.
  intros H. rewrite Forall_forall in H.
  split; [|split; [|split]].
  - apply transitions_none. intros e He b ->. exact (H _ He).
  - intros b Hin. exact (H _ Hin).
  - intros r. unfold kills. induction t as [|e t IH]; [reflexivity|].
    simpl. assert (He := H e (or_introl eq_refl)).
    destruct e; simpl in *; try contradiction;
      apply IH; intros e' He'; apply H; right; exact He'.
  - intros Hin. exact (H _ Hin).
Qed.

(** C2.  In every run of the supervisor -- whatever the schedule of monitor
    turns and wait-loop turns, with or without a signal -- the stop event
    goes from clear to set at most once, exactly once as soon as [killall]
    was entered at all, and [kill()] is called at most once for each of the
    three roles. *)
Theorem stop_event_set_once_and_each_role_killed_once :
  forall (os0 : OS) (cp : option string) (sched : list step),
    let t := snd (S3P_init os0 cp sched) in
    (transitions t <= 1)%nat /\
    ((exists b, In (ESet b) t) -> transitions t = 1%nat) /\
    (forall r, (kills r t <= 1)%nat).
Proof.
  intros os0 cp sched. unfold S3P_init.
  pose proof (startup_events os0 (fresh cp)) as Hst.
  destruct (startup os0 (fresh cp)) as [[[u|e] s1] t1]; simpl in Hst.
  - destruct (wait_loop _ sched NotStarted (set_stop_event false s1))
      as [[o s2] t2] eqn:Hw.
    apply wait_loop_spec in Hw.
    destruct Hw as [[_ [_ [Hset Htr]]] [Hk _]].
    destruct (startup_event_facts t1 Hst) as [Ht1 [Hn1 [Hk1 _]]].
    cbn [stop_event set_stop_event] in Htr.
    cbv zeta. cbn [snd].
    change (t1 ++ [EStart] ++ t2) with (t1 ++ EStart :: t2).
    assert (Htt : transitions (t1 ++ EStart :: t2) = transitions t2).
    { rewrite transitions_app, Ht1. reflexivity. }
    rewrite Htt, Htr.
    split; [destruct (stop_event s2); lia|]. split.
    + intros [b Hin]. rewrite Hset; [reflexivity|].
      exists b. apply in_app_or in Hin. destruct Hin as [Hin|Hin];
        [exfalso; exact (Hn1 b Hin)|].
      destruct Hin as [Hd|Hin]; [discriminate | exact Hin].
    + intros r. rewrite kills_app, Hk1. simpl. apply Hk.
  - destruct (startup_event_facts t1 Hst) as [Ht1 [Hn1 [Hk1 _]]].
    cbv zeta. cbn [snd]. rewrite Ht1.
    split; [lia|]. split.
    + intros [b Hin]. exfalso. exact (Hn1 b Hin).
    + intros r. rewrite Hk1. lia.
Qed.

Lemma stop_event_set_once_and_each_role_killed_once_witness :
  In (ESet false) (snd (S3P_init os_boot None sched_zombie)) /\
  In (ESet true) (snd (S3P_init os_boot None sched_zombie)) /\
  transitions (snd (S3P_init os_boot None sched_zombie)) = 1%nat /\
  (forall r, (kills r (snd (S3P_init os_boot None sched_zombie)) <= 1)%nat).
Proof.
  destruct (stop_event_set_once_and_each_role_killed_once os_boot None sched_zombie)
    as [_ [H1 H2]].
  split; [vm_compute; tauto|]. split; [vm_compute; tauto|].
  split; [apply H1; exists false; vm_compute; tauto | exact H2].
Defined.




(** ** Launch failures *)







(** * Further properties of the code *)

(** ** Command lines *)

Lemma pbgw_start_for c :
  pbgw_start (if String.eqb (parse_com_port c) "None" then None
              else Some (parse_com_port c)) = pbgw_cmd_for c.
Proof.
  destruct c as [v|]; simpl; [|reflexivity].
  destruct (String.eqb v "None") eqn:E1; simpl; [reflexivity|].
  unfold pbgw_start. simpl. destruct (String.eqb v ""); reflexivity.
Qed.

Lemma startup_spawned os cp :
  incl (spawned (snd (startup os (fresh cp))))
       [backplane_cmd; wsgw_start; pbgw_start cp] /\
  (List.length (spawned (snd (startup os (fresh cp)))) <= 3)%nat.
Proof.
  rewrite startup_eq.
  pose proof (start_backplane_cases os (fresh cp)) as Hc.
  destruct (start_backplane os (fresh cp)) as [[[u|e] s1] t1];
    destruct Hc as [Hcp [_ [_ Hsp]]].
  - assert (Hb : incl (spawned t1) [backplane_cmd; wsgw_start; pbgw_start cp] /\
                 (List.length (spawned t1) <= 1)%nat).
    { destruct Hsp as [->|[-> _]]; split; simpl; try lia;
        intros c Hc; simpl in *; tauto. }
    destruct Hb as [Hb Hl].
    rewrite start_wsgw_eq.
    destruct (Popen os wsgw_start) as [n|e].
    + rewrite start_pbgw_eq. simpl com_port. rewrite Hcp. simpl com_port.
      destruct (Popen os (pbgw_start cp)) as [k|e]; cbn [snd];
        rewrite spawned_app; simpl; rewrite length_app; simpl;
        (split; [|lia]); apply incl_app; [exact Hb| |exact Hb|];
        intros c Hc; simpl in *; tauto.
    + cbn [snd]. rewrite spawned_app. simpl. rewrite length_app. simpl.
      split; [|lia]. apply incl_app; [exact Hb|].
      intros c Hc; simpl in *; tauto.
  - cbn [snd]. destruct Hsp as [->|[-> _]]; split; simpl; try lia;
      intros c Hc; simpl in *; tauto.
Qed.

(** The supervisor launches nothing but its three command lines, at most
    three launches in a run, and the device gateway gets [-c port] exactly
    when [-c] was given a value other than ["None"] and the empty string. *)
Theorem s3px_launches_only_its_three_commands :
  forall (c : option string) (os : OS) (sched : list step),
    incl (spawned (snd (s3px c os sched)))
         [["backplane"]; ["wsgw"; "-i"; "9004"]; pbgw_cmd_for c] /\
    (List.length (spawned (snd (s3px c os sched))) <= 3)%nat.
Proof.
  intros c os sched. unfold s3px. cbv zeta.
  rewrite <- pbgw_start_for.
  set (cp := if String.eqb (parse_com_port c) "None" then None
             else Some (parse_com_port c)).
  pose proof (startup_spawned os cp) as Hs.
  unfold S3P_init.
  destruct (startup os (fresh cp)) as [[[u|e] s1] t1]; cbn [snd] in *.
  - destruct (wait_loop _ sched NotStarted (set_stop_event false s1))
      as [[o s2] t2] eqn:Hw.
    apply wait_loop_spec in Hw. destruct Hw as [_ [_ [Hw _]]].
    cbn [snd]. rewrite !spawned_app, Hw. simpl. rewrite app_nil_r. exact Hs.
  - exact Hs.
Qed.

(** ** More on the registry scan and start-up *)

(** The scan touches only [backplane_exists] and [proc_bp]. *)
Lemma scan_other_fields os l : forall p s,
  let s' := snd (fst (scan os p l s)) in
  proc_awg s' = proc_awg s /\ proc_hwg s' = proc_hwg s /\
  stop_event s' = stop_event s.
Proof.
  induction l as [|n rest IH]; intros p s; [cbv zeta; simpl; auto|].
  cbv zeta. rewrite scan_cons.
  destruct (match psutil_Process os (Some n) with Ok q => Some q | Raise _ => p end)
    as [q|]; [|simpl; auto].
  destruct (proc_name os (pid q)) as [nm|e]; [|simpl; auto].
  destruct (String.eqb nm "backplane"); [|apply IH].
  specialize (IH (Some q) (set_proc_bp (Some (pid q)) (set_backplane_exists true s))).
  cbv zeta in IH.
  destruct (scan os (Some q) rest _) as [[r s2] t2]. exact IH.
Qed.

(** When the scan completes without a match, the backplane is launched:
    exactly one launch, [proc_bp] is the child's pid, and the line
    [Backplane started.] is printed once. *)
Theorem backplane_spawned_once_when_none_running :
  forall (os : OS) (s s' : S3P) (t : trace),
    backplane_exists s = false ->
    last_match os = None ->
    start_backplane os s = (Ok tt, s', t) ->
    spawned t = [backplane_cmd] /\
    printed t = ["Backplane started."] /\
    backplane_exists s' = true /\
    exists n, Popen os backplane_cmd = Ok n /\ proc_bp s' = Some n.
Proof.
  intros os s s' t Hex Hlast H.
  rewrite start_backplane_eq in H.
  pose proof (scan_spawned os (pids os) None s) as Hsp.
  pose proof (scan_quiet os (pids os) None s) as Hq.
  destruct (scan os None (pids os) s) as [[[u|e] s1] t1] eqn:Hscan; [|discriminate].
  destruct u. simpl in Hsp, Hq.
  pose proof (scan_adopts os (pids os) None s s1 t1) as Ha.
  unfold last_match in Hlast. rewrite Hlast in Ha.
  destruct Ha as [_ Ha]; [intros q Hq'; discriminate | exact Hscan |].
  rewrite Hex in Ha. rewrite Ha in H. specialize (Hq Ha).
  destruct (Popen os backplane_cmd) as [n|e]; [|discriminate].
  inversion H; subst.
  rewrite spawned_app, printed_app, Hsp, Hq.
  repeat split. exists n. split; reflexivity.
Qed.

Lemma backplane_spawned_once_when_none_running_witness :
  spawned (snd (start_backplane os_no_wsgw (fresh None))) = [backplane_cmd] /\
  printed (snd (start_backplane os_no_wsgw (fresh None))) = ["Backplane started."] /\
  backplane_exists (snd (fst (start_backplane os_no_wsgw (fresh None)))) = true /\
  exists n, Popen os_no_wsgw backplane_cmd = Ok n /\
            proc_bp (snd (fst (start_backplane os_no_wsgw (fresh None)))) = Some n.
Proof.
  apply (backplane_spawned_once_when_none_running os_no_wsgw (fresh None)
           (snd (fst (start_backplane os_no_wsgw (fresh None))))
           (snd (start_backplane os_no_wsgw (fresh None))));
    reflexivity.
Defined.

Lemma scan_completes_gen os l : forall p s,
  match p with
  | None => match l with [] => True | n :: _ => proc_lookup os n = None end
  | Some q => exists nm, proc_name os (pid q) = Ok nm
  end ->
  (forall n, In n l -> proc_lookup os n = None -> exists nm, proc_name os n = Ok nm) ->
  exists s' t, scan os p l s = (Ok tt, s', t).
Proof.
  induction l as [|n rest IH]; intros p s Hp Hn.
  - eexists _, _. reflexivity.
  - rewrite scan_cons, psutil_Process_Some.
    assert (Hrest : forall k, In k rest -> proc_lookup os k = None ->
                      exists nm, proc_name os k = Ok nm)
      by (intros k Hk; apply Hn; right; exact Hk).
    destruct (proc_lookup os n) as [err|] eqn:Hl.
    + destruct p as [q|]; [|discriminate].
      destruct Hp as [nm Hq]. rewrite Hq.
      destruct (String.eqb nm "backplane").
      * destruct (IH (Some q) (set_proc_bp (Some (pid q)) (set_backplane_exists true s)))
          as [s' [t Heq]]; [exists nm; exact Hq | exact Hrest |].
        rewrite Heq. eexists _, _. reflexivity.
      * apply IH; [exists nm; exact Hq | exact Hrest].
    + destruct (Hn n (or_introl eq_refl) Hl) as [nm Hq]. simpl. rewrite Hq.
      destruct (String.eqb nm "backplane").
      * destruct (IH (Some (mkProcess n))
                    (set_proc_bp (Some n) (set_backplane_exists true s)))
          as [s' [t Heq]]; [exists nm; exact Hq | exact Hrest |].
        rewrite Heq. eexists _, _. reflexivity.
      * apply IH; [exists nm; exact Hq | exact Hrest].
Qed.

(** How far the scan does tolerate races: if the first enumerated process
    can still be looked up, and the name of every process that can be looked
    up can be read, the scan completes, however many of the later entries
    have gone since the enumeration. *)
Theorem scan_completes_when_first_lookup_and_names_succeed :
  forall (os : OS) (s : S3P),
    match pids os with [] => True | n :: _ => proc_lookup os n = None end ->
    (forall n, In n (pids os) -> proc_lookup os n = None ->
               exists nm, proc_name os n = Ok nm) ->
    exists s' t, scan os None (pids os) s = (Ok tt, s', t).
Proof.
  intros os s H1 H2. apply scan_completes_gen; assumption.
Qed.

Lemma scan_completes_when_first_lookup_and_names_succeed_witness :
  exists s' t, scan os_later_vanished None (pids os_later_vanished) (fresh None)
               = (Ok tt, s', t).
Proof.
  apply (scan_completes_when_first_lookup_and_names_succeed os_later_vanished
           (fresh None)).
  - reflexivity.
  - intros n _ _. simpl. destruct (n =? 100); eexists; reflexivity.
Defined.

Lemma scan_prints_gen os l : forall p s s' t,
  (forall n, In n l -> proc_lookup os n = None) ->
  scan os p l s = (Ok tt, s', t) ->
  printed t = repeat "Backplane started." (List.length (filter (matching os) l)).
Proof.
  induction l as [|n rest IH]; intros p s s' t Hall H.
  - inversion H; subst. reflexivity.
  - rewrite scan_cons, psutil_Process_Some in H.
    assert (Hl : proc_lookup os n = None) by (apply Hall; left; reflexivity).
    assert (Hrest : forall k, In k rest -> proc_lookup os k = None)
      by (intros k Hk; apply Hall; right; exact Hk).
    simpl filter. unfold matching at 1. unfold names_backplane.
    rewrite Hl in *. simpl in H.
    destruct (proc_name os n) as [nm|e]; [|discriminate].
    destruct (String.eqb nm "backplane").
    + destruct (scan os (Some (mkProcess n)) rest _) as [[r s2] t2] eqn:Hs.
      inversion H; subst. simpl. f_equal. eapply IH; eassumption.
    + eapply IH; eassumption.
Qed.

(** With every enumerated process still there, a scan that completes prints
    [Backplane started.] once for each process called [backplane]: two
    running backplanes give the line twice. *)
Theorem scan_prints_one_line_per_backplane :
  forall (os : OS) (s s' : S3P) (t : trace),
    (forall n, In n (pids os) -> proc_lookup os n = None) ->
    scan os None (pids os) s = (Ok tt, s', t) ->
    printed t =
      repeat "Backplane started." (List.length (filter (matching os) (pids os))).
Proof.
  intros os s s' t Hall H. eapply scan_prints_gen; eassumption.
Qed.

Lemma scan_prints_one_line_per_backplane_witness :
  printed (snd (scan os_two_backplanes None (pids os_two_backplanes) (fresh None)))
  = ["Backplane started."; "Backplane started."].
Proof.
  apply (scan_prints_one_line_per_backplane os_two_backplanes (fresh None)
           (snd (fst (scan os_two_backplanes None (pids os_two_backplanes)
                        (fresh None))))).
  - intros n Hn. simpl in Hn. destruct Hn as [<-|[<-|[]]]; reflexivity.
  - reflexivity.
Defined.

Lemma start_backplane_ok os cp s2 t2 :
  start_backplane os (fresh cp) = (Ok tt, s2, t2) ->
  exists b,
    proc_bp s2 = Some b /\ backplane_exists s2 = true /\
    com_port s2 = cp /\ stop_event s2 = false /\
    (last_match os = Some b \/
     (last_match os = None /\ Popen os backplane_cmd = Ok b)).
Proof.
  intros H. rewrite start_backplane_eq in H.
  pose proof (scan_other_fields os (pids os) None (fresh cp)) as Hof.
  pose proof (scan_com_port os (pids os) None (fresh cp)) as Hcp.
  destruct (scan os None (pids os) (fresh cp)) as [[[u|e] s1] t1] eqn:Hscan;
    [|discriminate].
  destruct u. cbv zeta in Hof. simpl in Hof, Hcp.
  destruct Hof as [Hawg [Hhwg Hst]].
  pose proof (scan_adopts os (pids os) None (fresh cp) s1 t1) as Ha.
  unfold last_match.
  destruct (find (matching os) (rev (pids os))) as [m|].
  - destruct Ha as [Hb Hex]; [intros q Hq; discriminate | exact Hscan |].
    rewrite Hex in H. inversion H; subst. exists m. repeat split; auto.
  - destruct Ha as [Hb Hex]; [intros q Hq; discriminate | exact Hscan |].
    simpl in Hex. rewrite Hex in H.
    destruct (Popen os backplane_cmd) as [n|e]; [|discriminate].
    inversion H; subst. exists n. simpl. repeat split; auto.
Qed.

Lemma startup_ok_fields os cp s t :
  startup os (fresh cp) = (Ok tt, s, t) ->
  exists b w h,
    proc_bp s = Some b /\ proc_awg s = Some w /\ proc_hwg s = Some h /\
    (last_match os = Some b \/
     (last_match os = None /\ Popen os backplane_cmd = Ok b)) /\
    Popen os wsgw_start = Ok w /\ Popen os (pbgw_start cp) = Ok h /\
    backplane_exists s = true /\ com_port s = cp /\ stop_event s = false.
Proof.
  intros H.
  rewrite startup_eq in H.
  destruct (start_backplane os (fresh cp)) as [[[u|e] s2] t2] eqn:Hsb;
    [|discriminate].
  destruct u. apply start_backplane_ok in Hsb.
  destruct Hsb as [b [Hb [Hex [Hc2 [Hs2 Hlm]]]]].
  rewrite start_wsgw_eq in H.
  destruct (Popen os wsgw_start) as [w|e]; [|discriminate].
  rewrite start_pbgw_eq in H. simpl com_port in H. rewrite Hc2 in H.
  destruct (Popen os (pbgw_start cp)) as [h|e]; [|discriminate].
  inversion H; subst. exists b, w, h. simpl.
  repeat split; auto.
Qed.

(** A start-up that succeeds leaves an identifier in all three attributes:
    the backplane's is the last match of the scan or, without a match, the
    pid of the spawned child; the gateways' are the pids of their children.
    So, unless a pid is 0, the monitor prints none of its [not up] lines. *)
Theorem startup_sets_all_three_pids :
  forall (os : OS) (cp : option string) (s : S3P) (t : trace),
    startup os (fresh cp) = (Ok tt, s, t) ->
    exists b w h,
      proc_bp s = Some b /\ proc_awg s = Some w /\ proc_hwg s = Some h /\
      (last_match os = Some b \/
       (last_match os = None /\ Popen os backplane_cmd = Ok b)) /\
      Popen os wsgw_start = Ok w /\ Popen os (pbgw_start cp) = Ok h /\
      backplane_exists s = true /\ com_port s = cp /\ stop_event s = false /\
      (b <> 0 -> h <> 0 -> printed (snd (run_prologue s)) = []).
Proof.
  intros os cp s t H.
  destruct (startup_ok_fields os cp s t H)
    as [b [w [h [Hb [Hw [Hh [Hlm [Hpw [Hph [Hex [Hcp Hst]]]]]]]]]]].
  exists b, w, h. repeat split; auto.
  intros Hb0 Hh0. rewrite run_prologue_eq. simpl. unfold known.
  rewrite Hb, Hh. simpl.
  apply Z.eqb_neq in Hb0. apply Z.eqb_neq in Hh0. rewrite Hb0, Hh0. reflexivity.
Qed.

Lemma startup_sets_all_three_pids_witness :
  exists b w h,
    proc_bp (snd (fst (startup os_boot (fresh None)))) = Some b /\
    proc_awg (snd (fst (startup os_boot (fresh None)))) = Some w /\
    proc_hwg (snd (fst (startup os_boot (fresh None)))) = Some h /\
    (last_match os_boot = Some b \/
     (last_match os_boot = None /\ Popen os_boot backplane_cmd = Ok b)) /\
    Popen os_boot wsgw_start = Ok w /\ Popen os_boot (pbgw_start None) = Ok h /\
    backplane_exists (snd (fst (startup os_boot (fresh None)))) = true /\
    com_port (snd (fst (startup os_boot (fresh None)))) = None /\
    stop_event (snd (fst (startup os_boot (fresh None)))) = false /\
    (b <> 0 -> h <> 0 ->
     printed (snd (run_prologue (snd (fst (startup os_boot (fresh None)))))) = []).
Proof.
  apply (startup_sets_all_three_pids os_boot None
           (snd (fst (startup os_boot (fresh None))))
           (snd (startup os_boot (fresh None)))).
  reflexivity.
Defined.

(** A start-up that fails ends the run with the exception, and nothing is
    ever killed: the exit hook is registered only after start-up, so the
    processes launched before the failure are left running. *)
Theorem failed_startup_kills_nothing :
  forall (os : OS) (cp : option string) (sched : list step) (e : exn)
         (s : S3P) (t : trace),
    startup os (fresh cp) = (Raise e, s, t) ->
    S3P_init os cp sched = (Some (outcome_of e), s, t) /\
    (forall r, kills r t = 0%nat) /\
    kill_events t = [] /\
    (forall b, ~ In (ESet b) t) /\
    ~ In EStart t.
Proof.
  intros os cp sched e s t H.
  pose proof (startup_events os (fresh cp)) as Hst.
  unfold S3P_init. rewrite H in *. simpl in Hst.
  destruct (startup_event_facts t Hst) as [_ [Hns [Hk Hstart]]].
  split; [reflexivity|]. split; [exact Hk|]. split; [|split; assumption].
  clear -Hst. induction Hst as [|ev t Hev _ IH]; [reflexivity|].
  destruct ev; simpl in *; try contradiction; exact IH.
Qed.

Lemma failed_startup_kills_nothing_witness :
  spawned (snd (S3P_init os_no_wsgw None [])) = [backplane_cmd; wsgw_start] /\
  fst (fst (S3P_init os_no_wsgw None [])) =
    Some (Crashed (OSError 2 (Some "wsgw"))) /\
  kill_events (snd (S3P_init os_no_wsgw None [])) = [].
Proof.
  destruct (failed_startup_kills_nothing os_no_wsgw None []
              (OSError 2 (Some "wsgw"))
              (snd (fst (startup os_no_wsgw (fresh None))))
              (snd (startup os_no_wsgw (fresh None))) eq_refl)
    as [H1 [_ [H3 _]]].
  split; [reflexivity|]. rewrite H1. split; [reflexivity | exact H3].
Defined.

(** ** More on killall *)

Lemma kill_events_app t1 t2 : kill_events (t1 ++ t2) = kill_events t1 ++ kill_events t2.
Proof. unfold kill_events. apply filter_app. Qed.

Lemma clause_guard os r g tg mk me p :
  truthy (fst (clause os r g tg mk me p)) =
  (truthy p || (truthy g && lookup_ok os tg))%bool.
Proof.
  unfold clause, lookup_ok.
  destruct (truthy g); [|simpl; rewrite orb_false_r; reflexivity].
  destruct (psutil_Process os tg); simpl.
  - rewrite orb_true_r. reflexivity.
  - rewrite orb_false_r. reflexivity.
Qed.

Lemma clause_kills os r r' g tg mk me p :
  kills r (snd (clause os r' g tg mk me p)) =
  if (role_eqb r r' && truthy g && lookup_ok os tg)%bool then 1%nat else 0%nat.
Proof.
  unfold clause, lookup_ok.
  destruct (truthy g); [|rewrite andb_false_r; reflexivity].
  destruct (psutil_Process os tg) as [q|e]; [|rewrite andb_false_r; reflexivity].
  simpl snd. rewrite kills_clause_trace, !andb_true_r. reflexivity.
Qed.

Lemma clause_kill_events os r g tg mk me p :
  kill_events (snd (clause os r g tg mk me p)) =
  if truthy g then
    match psutil_Process os tg with
    | Ok q => [EKill r q]
    | Raise _ => []
    end
  else [].
Proof.
  unfold clause.
  destruct (truthy g); [|reflexivity].
  destruct (psutil_Process os tg) as [q|e]; [|reflexivity].
  unfold clause_trace, kill_events. simpl.
  destruct (proc_kill os (pid q)); reflexivity.
Qed.

(** The [kill()] calls of one [killall], in closed form. *)
Lemma killall_kill_events os b w p s :
  kill_events (snd (killall os b w p s)) =
  (if truthy b then
     match psutil_Process os (proc_bp s) with Ok q => [EKill Backplane q] | Raise _ => [] end
   else []) ++
  (if truthy w then
     match psutil_Process os (proc_awg s) with
     | Ok q => [EKill WebsocketGateway q] | Raise _ => [] end
   else []) ++
  (if (truthy p || (truthy b && lookup_ok os (proc_bp s))
       || (truthy w && lookup_ok os (proc_awg s)))%bool then
     match psutil_Process os (proc_hwg s) with
     | Ok q => [EKill PicoboardGateway q] | Raise _ => [] end
   else []).
Proof.
  rewrite killall_eq. cbv zeta. cbn [snd].
  change (ESet (stop_event s) :: ?t) with ([ESet (stop_event s)] ++ t).
  rewrite !kill_events_app.
  unfold bp_clause, ws_clause, pb_clause.
  rewrite !clause_kill_events, !clause_guard. reflexivity.
Qed.

(** C10 as the specification states it fails: a backplane argument of 0 is
    not [None], yet [if b:] skips the clause; with the websocket argument
    and [p] both [None] the picoboard clause does not run, although the
    backplane can be looked up. *)
Lemma backplane_argument_zero_leaves_p_alone :
  PyInt 0 <> PyNone /\
  lookup_ok os_zombie (proc_bp s_running) = true /\
  kills PicoboardGateway
    (snd (killall os_zombie (PyInt 0) PyNone PyNone s_running)) = 0%nat /\
  ~ p_reassignment_claim.
Proof.
  split; [discriminate|]. split; [reflexivity|]. split; [reflexivity|].
  intros Hc.
  specialize (Hc os_zombie s_running (PyInt 0) PyNone (mkProcess 100) (mkProcess 300)).
  assert (Hin : In (EKill PicoboardGateway (mkProcess 300))
                   (snd (killall os_zombie (PyInt 0) PyNone PyNone s_running)))
    by (apply Hc; [discriminate | reflexivity | reflexivity]).
  vm_compute in Hin. destruct Hin as [Hd|[]]. discriminate.
Qed.

(** C10, amended.  [killall] assigns a process object to its parameter [p]
    in the backplane clause and in the websocket clause, each time the
    clause's argument passes Python's truth test (it is neither [None] nor
    0) and the clause's lookup succeeds; otherwise the clause leaves [p] as
    it was.  So when one of the two clauses has done so, the picoboard
    clause runs whatever the caller passed for [p], [None] included: the
    call does the same as with [p = None], and kills the picoboard gateway
    if its lookup succeeds.  When neither has, the picoboard kill depends on
    the caller's [p] alone. *)
Theorem killall_reassigns_p_in_both_clauses :
  forall (os : OS) (s : S3P) (b w p : pyval),
    let bp_done := (truthy b && lookup_ok os (proc_bp s))%bool in
    let ws_done := (truthy w && lookup_ok os (proc_awg s))%bool in
    (exists p1 t1 p2 t2,
       kill_backplane os b p s = (Ok p1, s, t1) /\
       kill_wsgw os w p1 s = (Ok p2, s, t2) /\
       (bp_done = true ->
        exists q, psutil_Process os (proc_bp s) = Ok q /\ p1 = PyProcess q) /\
       (bp_done = false -> p1 = p) /\
       (ws_done = true ->
        exists q, psutil_Process os (proc_awg s) = Ok q /\ p2 = PyProcess q) /\
       (ws_done = false -> p2 = p1)) /\
    ((bp_done || ws_done)%bool = true ->
       killall os b w p s = killall os b w PyNone s /\
       forall h, psutil_Process os (proc_hwg s) = Ok h ->
                 In (EKill PicoboardGateway h) (snd (killall os b w p s))) /\
    ((bp_done || ws_done)%bool = false ->
       kills PicoboardGateway (snd (killall os b w p s)) =
       if (truthy p && lookup_ok os (proc_hwg s))%bool then 1%nat else 0%nat).
Proof.
  intros os s b w p. cbv zeta.
  split; [|split].
  - rewrite kill_backplane_eq. eexists _, _. rewrite kill_wsgw_eq. eexists _, _.
    split; [reflexivity|]. split; [reflexivity|].
    unfold bp_clause, ws_clause, clause, lookup_ok.
    destruct (truthy b); destruct (psutil_Process os (proc_bp s)) as [q|e];
      destruct (truthy w); destruct (psutil_Process os (proc_awg s)) as [q'|e'];
      simpl; repeat split; intros; try discriminate; eauto.
  - intros Hdone. split.
    + rewrite !killall_eq. cbv zeta.
      unfold bp_clause, ws_clause, pb_clause, clause, lookup_ok in *.
      destruct (truthy b); destruct (psutil_Process os (proc_bp s)) as [q|e];
        destruct (truthy w); destruct (psutil_Process os (proc_awg s)) as [q'|e'];
        simpl in *; try discriminate; reflexivity.
    + intros h Hh.
      assert (Hk : In (EKill PicoboardGateway h)
                      (kill_events (snd (killall os b w p s)))).
      { rewrite killall_kill_events.
        apply in_or_app. right. apply in_or_app. right.
        replace (truthy p || truthy b && lookup_ok os (proc_bp s)
                 || truthy w && lookup_ok os (proc_awg s))%bool with true.
        - rewrite Hh. left. reflexivity.
        - symmetry. rewrite <- orb_assoc, Hdone. apply orb_true_r. }
      unfold kill_events in Hk. apply filter_In in Hk. tauto.
  - intros Hnone.
    rewrite killall_eq. cbv zeta. cbn [snd].
    change (ESet (stop_event s) :: ?t) with ([ESet (stop_event s)] ++ t).
    rewrite !kills_app. unfold bp_clause, ws_clause, pb_clause.
    rewrite !clause_kills, !clause_guard. simpl role_eqb. simpl andb.
    change (kills PicoboardGateway [ESet (stop_event s)]) with 0%nat.
    rewrite <- orb_assoc, Hnone, orb_false_r. simpl.
    destruct (truthy p && lookup_ok os (proc_hwg s))%bool; reflexivity.
Qed.

Lemma killall_reassigns_p_in_both_clauses_witness :
  killall os_zombie PyNone (PyInt 200) (PyInt 300) s_running =
    killall os_zombie PyNone (PyInt 200) PyNone s_running /\
  In (EKill PicoboardGateway (mkProcess 300))
     (snd (killall os_zombie PyNone (PyInt 200) PyNone s_running)) /\
  In (EKill PicoboardGateway (mkProcess 300))
     (snd (killall os_zombie (PyInt 100) PyNone PyNone s_running)) /\
  kills PicoboardGateway (snd (killall os_zombie PyNone PyNone PyNone s_running))
    = 0%nat.
Proof.
  destruct (killall_reassigns_p_in_both_clauses os_zombie s_running
              PyNone (PyInt 200) (PyInt 300)) as [_ [H1 _]].
  destruct (killall_reassigns_p_in_both_clauses os_zombie s_running
              PyNone (PyInt 200) PyNone) as [_ [H2 _]].
  destruct (killall_reassigns_p_in_both_clauses os_zombie s_running
              (PyInt 100) PyNone PyNone) as [_ [H3 _]].
  destruct (killall_reassigns_p_in_both_clauses os_zombie s_running
              PyNone PyNone PyNone) as [_ [_ H4]].
  split; [exact (proj1 (H1 eq_refl))|].
  split; [apply (proj2 (H2 eq_refl)); reflexivity|].
  split; [apply (proj2 (H3 eq_refl)); reflexivity|].
  exact (H4 eq_refl).
Defined.

(** Exactly when the picoboard gateway is killed: its own lookup must
    succeed, and either the caller's [p] is true, or the backplane clause or
    the websocket clause has put a process object into [p]. *)
Theorem pbgw_killed_iff_p_or_earlier_lookup :
  forall (os : OS) (s : S3P) (b w p : pyval),
    kills PicoboardGateway (snd (killall os b w p s)) =
    if ((truthy p || (truthy b && lookup_ok os (proc_bp s))
         || (truthy w && lookup_ok os (proc_awg s)))
        && lookup_ok os (proc_hwg s))%bool
    then 1%nat else 0%nat.
Proof.
  intros os s b w p.
  rewrite killall_eq. cbv zeta. cbn [snd].
  change (ESet (stop_event s) :: ?t) with ([ESet (stop_event s)] ++ t).
  rewrite !kills_app. unfold bp_clause, ws_clause, pb_clause.
  rewrite !clause_kills, !clause_guard. simpl role_eqb. simpl andb.
  change (kills PicoboardGateway [ESet (stop_event s)]) with 0%nat.
  destruct ((truthy p || truthy b && lookup_ok os (proc_bp s)
             || truthy w && lookup_ok os (proc_awg s))
            && lookup_ok os (proc_hwg s))%bool; reflexivity.
Qed.

(** The arguments of [killall] count only through their truth value: the
    processes looked up and killed are those of the attributes [proc_bp],
    [proc_awg] and [proc_hwg], never the values passed in. *)
Theorem killall_arguments_count_only_as_truth_values :
  forall (os : OS) (s : S3P) (b w p b' w' p' : pyval),
    truthy b = truthy b' -> truthy w = truthy w' -> truthy p = truthy p' ->
    killall os b w p s = killall os b' w' p' s.
Proof.
  intros os s b w p b' w' p' Hb Hw Hp.
  rewrite !killall_eq. cbv zeta.
  assert (Hc : forall r g g' tg mk me q q',
            truthy g = truthy g' -> truthy q = truthy q' ->
            snd (clause os r g tg mk me q) = snd (clause os r g' tg mk me q') /\
            truthy (fst (clause os r g tg mk me q)) =
            truthy (fst (clause os r g' tg mk me q'))).
  { intros r g g' tg mk me q q' Hg Hq. unfold clause. rewrite <- Hg.
    destruct (truthy g); [|auto].
    destruct (psutil_Process os tg); auto. }
  unfold bp_clause, ws_clause, pb_clause.
  destruct (Hc Backplane b b' (proc_bp s) "killing backplane"
              "exception in killing backplane" p p' Hb Hp) as [H1 G1].
  destruct (Hc WebsocketGateway w w' (proc_awg s) "killing websocket gateway"
              "exception in killing awg" _ _ Hw G1) as [H2 G2].
  destruct (Hc PicoboardGateway _ _ (proc_hwg s) "killing picoboard gateway"
              "exception in killing pbgw" _ _ G2 G2) as [H3 _].
  rewrite H1, H2, H3. reflexivity.
Qed.

Lemma killall_arguments_count_only_as_truth_values_witness :
  killall os_zombie (PyInt 1) (PyInt 2) (PyInt 3) s_running =
  killall os_zombie (PyInt 100) (PyInt 200) (PyInt 300) s_running /\
  kill_events (snd (killall os_zombie (PyInt 1) (PyInt 2) (PyInt 3) s_running)) =
  [EKill Backplane (mkProcess 100); EKill WebsocketGateway (mkProcess 200);
   EKill PicoboardGateway (mkProcess 300)].
Proof.
  split; [|reflexivity].
  apply (killall_arguments_count_only_as_truth_values os_zombie s_running);
    reflexivity.
Defined.

(** [killall] does not look at the stop event: called a second time with
    the same arguments it calls [kill()] on the same processes again; only
    the flag keeps its value. *)
Theorem killall_again_kills_again :
  forall (os : OS) (s : S3P) (b w p : pyval),
    let first := killall os b w p s in
    let second := killall os b w p (snd (fst first)) in
    kill_events (snd second) = kill_events (snd first) /\
    (forall r, kills r (snd first ++ snd second) = (2 * kills r (snd first))%nat) /\
    transitions (snd second) = 0%nat /\
    snd (fst second) = snd (fst first).
Proof.
  intros os s b w p. cbv zeta.
  assert (Hs : snd (fst (killall os b w p s)) = set_stop_event true s)
    by (rewrite killall_eq; reflexivity).
  rewrite Hs.
  assert (Heq : forall r, kills r (snd (killall os b w p (set_stop_event true s)))
                          = kills r (snd (killall os b w p s))).
  { intros r. rewrite !killall_eq. cbv zeta. cbn [snd].
    change (ESet ?x :: ?t) with ([ESet x] ++ t). rewrite !kills_app. reflexivity. }
  split; [rewrite !killall_kill_events; reflexivity|].
  split; [intros r; rewrite kills_app, Heq; lia|].
  split.
  - pose proof (killall_flag_kept os b w p (set_stop_event true s)) as [_ [_ [_ Ht]]].
    exact Ht.
  - rewrite killall_eq. reflexivity.
Qed.

(** What [kill()] answers changes nothing but the [exception in killing]
    lines: on two systems that look up the same processes, [killall] calls
    [kill()] on the same processes in the same order and leaves the same
    state, whether or not the calls raise. *)
Theorem kill_failures_do_not_change_the_attempts :
  forall (os os' : OS) (s : S3P) (b w p : pyval),
    getpid os = getpid os' ->
    (forall n, proc_lookup os n = proc_lookup os' n) ->
    kill_events (snd (killall os b w p s)) = kill_events (snd (killall os' b w p s)) /\
    fst (killall os b w p s) = fst (killall os' b w p s).
Proof.
  intros os os' s b w p Hg Hl.
  assert (Hp : forall o, psutil_Process os o = psutil_Process os' o).
  { intros o. unfold psutil_Process. rewrite Hg. destruct o; rewrite Hl; reflexivity. }
  assert (Ho : forall o, lookup_ok os o = lookup_ok os' o)
    by (intros o; unfold lookup_ok; rewrite Hp; reflexivity).
  split.
  - rewrite !killall_kill_events, !Hp, !Ho. reflexivity.
  - rewrite !killall_eq. reflexivity.
Qed.

Lemma kill_failures_do_not_change_the_attempts_witness :
  kill_events (snd (killall os_kill_fails (PyInt 100) (PyInt 200) (PyInt 300) s_running))
  = kill_events (snd (killall os_zombie (PyInt 100) (PyInt 200) (PyInt 300) s_running)) /\
  In (EPrint "exception in killing backplane")
     (snd (killall os_kill_fails (PyInt 100) (PyInt 200) (PyInt 300) s_running)) /\
  List.length
    (kill_events (snd (killall os_kill_fails (PyInt 100) (PyInt 200) (PyInt 300)
                         s_running))) = 3%nat.
Proof.
  destruct (kill_failures_do_not_change_the_attempts os_kill_fails os_zombie s_running
              (PyInt 100) (PyInt 200) (PyInt 300) eq_refl (fun n => eq_refl))
    as [H _].
  split; [exact H|]. split; [vm_compute; tauto | reflexivity].
Defined.

(** ** More on the monitor *)

Lemma sets_app t1 t2 : sets (t1 ++ t2) = (sets t1 + sets t2)%nat.
Proof. unfold sets. rewrite filter_app, length_app. reflexivity. Qed.

Lemma sets_none t : (forall e, In e t -> forall b, e <> ESet b) -> sets t = 0%nat.
Proof.
  induction t as [|e t IH]; intros H; [reflexivity|].
  unfold sets in *. simpl.
  destruct e; simpl; try (apply IH; intros e' He'; apply H; right; exact He').
  exfalso. eapply H; [left; reflexivity | reflexivity].
Qed.

Lemma harmless_kill_events t : Forall harmless t -> kill_events t = [].
Proof.
  induction 1 as [|e t He _ IH]; [reflexivity|].
  destruct e; simpl in *; try contradiction; exact IH.
Qed.

Lemma for_each_sets os l : forall s,
  sets (snd (for_each (check_pid os) l s)) = List.length (filter (unhealthy os) l).
Proof.
  induction l as [|o l IH]; intros s; [reflexivity|].
  simpl for_each. simpl filter.
  destruct (check_pid_eq os o s) as [pr [_ [Hns Heq]]].
  unfold bind. rewrite Heq.
  destruct (unhealthy os o).
  - specialize (IH (set_stop_event true s)).
    destruct (for_each (check_pid os) l (set_stop_event true s)) as [[r s2] t2].
    cbn [snd] in *. rewrite !sets_app, (sets_none pr Hns), IH. reflexivity.
  - specialize (IH s).
    destruct (for_each (check_pid os) l s) as [[r s2] t2].
    cbn [snd] in *. exact IH.
Qed.

(** One pass of the monitor does not stop at the first unhealthy process:
    it calls [killall] once for every entry of [pid_list] that is unhealthy,
    each time with three [None]s, so that nothing is killed or spawned and
    the flag goes up at most once. *)
Theorem monitor_cycle_calls_killall_for_every_unhealthy_entry :
  forall (os : OS) (l : list (option Z)) (s : S3P),
    let t := snd (monitor_cycle os l s) in
    sets t = List.length (filter (unhealthy os) l) /\
    kill_events t = [] /\ spawned t = [] /\
    transitions t =
      (if stop_event s then 0 else if existsb (unhealthy os) l then 1 else 0)%nat /\
    stop_event (snd (fst (monitor_cycle os l s))) =
      (stop_event s || existsb (unhealthy os) l)%bool.
Proof.
  intros os l s. cbv zeta.
  pose proof (for_each_sets os l s) as Hsets.
  destruct (for_each_check os l s) as [t1 [Heq [Hh [_ [_ [_ Htr]]]]]].
  unfold monitor_cycle, bind, sleep, emit. rewrite Heq in *. cbn [snd fst] in *.
  assert (Hh2 : Forall harmless (t1 ++ [ESleep (3 # 10)]))
    by (apply Forall_app; split; [exact Hh | repeat constructor]).
  split; [rewrite sets_app, Hsets; unfold sets; simpl; lia|].
  split; [apply harmless_kill_events; exact Hh2|].
  split; [apply harmless_spawned; exact Hh2|].
  split.
  - rewrite transitions_app, Htr. unfold transitions at 1. simpl.
    rewrite Nat.add_0_r.
    destruct (existsb (unhealthy os) l); simpl; destruct (stop_event s); reflexivity.
  - destruct (existsb (unhealthy os) l); simpl;
      [rewrite orb_true_r | rewrite orb_false_r]; reflexivity.
Qed.

(** Which line the monitor prints.  With three different identifiers the
    line for an invalid status names the role whose entry was polled; and
    when the lookup or the status query raises, the stop event is set
    without any line. *)
Theorem monitor_names_the_polled_role :
  forall (os : OS) (s : S3P) (r : role),
    proc_bp s <> proc_awg s -> proc_bp s <> proc_hwg s -> proc_awg s <> proc_hwg s ->
    (forall q st,
       psutil_Process os (proc_of r s) = Ok q ->
       proc_status os (pid q) = Ok st ->
       status_in st valid_status = false ->
       check_pid os (proc_of r s) s =
         (Ok tt, set_stop_event true s,
          [EPrint (exit_line r st); ESet (stop_event s)])) /\
    ((lookup_ok os (proc_of r s) = false \/
      exists q e, psutil_Process os (proc_of r s) = Ok q /\
                  proc_status os (pid q) = Raise e) ->
     check_pid os (proc_of r s) s =
       (Ok tt, set_stop_event true s, [ESet (stop_event s)])).
Proof.
  intros os s r H1 H2 H3.
  assert (Hrefl : forall o, pid_eqb o o = true).
  { intros [n|]; simpl; [apply Z.eqb_refl | reflexivity]. }
  assert (Hneq : forall a b, a <> b -> pid_eqb a b = false).
  { intros [x|] [y|] Hab; simpl; try reflexivity.
    - apply Z.eqb_neq. intros ->. apply Hab. reflexivity.
    - exfalso. apply Hab. reflexivity. }
  split.
  - intros q st Hq Hst Hin. unfold check_pid. rewrite Hq, Hst, Hin.
    change (negb false) with true.
    unfold bind, get, print2, print, emit. cbv beta iota.
    destruct r; cbn [proc_of].
    + rewrite Hrefl. rewrite killall_None. reflexivity.
    + rewrite (Hneq _ _ (not_eq_sym H1)), Hrefl. rewrite killall_None. reflexivity.
    + rewrite (Hneq _ _ (not_eq_sym H2)), (Hneq _ _ (not_eq_sym H3)).
      rewrite killall_None. reflexivity.
  - intros [Hl|[q [e [Hq Hst]]]]; unfold check_pid.
    + unfold lookup_ok in Hl.
      destruct (psutil_Process os (proc_of r s)); [discriminate|].
      apply killall_None.
    + rewrite Hq, Hst. apply killall_None.
Qed.

Lemma monitor_names_the_polled_role_witness :
  check_pid os_zombie (proc_of PicoboardGateway s_running) s_running =
    (Ok tt, set_stop_event true s_running,
     [EPrint (exit_line PicoboardGateway "zombie"); ESet false]).
Proof.
  destruct (monitor_names_the_polled_role os_zombie s_running PicoboardGateway)
    as [H _]; try discriminate.
  apply (H (mkProcess 300) "zombie"); reflexivity.
Defined.

(** ** More on the wait loop and the whole run *)

Lemma flag_kept_no_set s s' t :
  flag_kept s s' t -> stop_event s' = false -> sets t = 0%nat.
Proof.
  intros [_ [_ [Hset _]]] Hs. apply sets_none.
  intros e He b ->. rewrite Hset in Hs; [discriminate|]. exists b. exact He.
Qed.

Lemma monitor_step_NotStarted os s :
  monitor_step os NotStarted s =
  (Ok (Looping (pid_list_of s)), s,
   ((if negb (known (proc_bp s)) then [EPrint "backplane not up"] else []) ++
    (if negb (known (proc_bp s)) then [EPrint "wsgw not up"] else []) ++
    (if negb (known (proc_hwg s)) then [EPrint "pbgw not up"] else [])) ++ []).
Proof.
  cbn [monitor_step]. unfold bind. rewrite run_prologue_eq. reflexivity.
Qed.

(** As long as every poll finds the three processes healthy and no signal
    arrives, the supervisor keeps running: the wait loop does not end, the
    state does not change, the stop event is never set and nothing is
    killed. *)
Theorem healthy_supervisor_keeps_running :
  forall (h : hook_args) (sched : list step) (m : monitor) (s : S3P),
    stop_event s = false ->
    m = NotStarted \/ m = Looping (pid_list_of s) ->
    Forall (quiet_step s) sched ->
    exists t,
      wait_loop h sched m s = (None, s, t) /\
      sets t = 0%nat /\ kill_events t = [] /\ spawned t = [].
Proof.
  intros h sched. induction sched as [|st rest IH]; intros m s Hs Hm Hq.
  - exists []. repeat split.
  - inversion Hq as [|x l Hst Hrest]; subst.
    destruct st as [os|os i|os]; cbn [quiet_step] in Hst; [| |contradiction].
    + assert (Hstep : exists t1,
                monitor_step os m s = (Ok (Looping (pid_list_of s)), s, t1) /\
                Forall harmless t1 /\ sets t1 = 0%nat).
      { destruct Hm as [-> | ->].
        - destruct (monitor_step_spec os NotStarted s)
            as [m' [s' [t1 [Heq [Hh [Hfk _]]]]]].
          rewrite monitor_step_NotStarted in Heq. inversion Heq; subst m' s'.
          eexists. split; [apply monitor_step_NotStarted|].
          rewrite H2. split; [exact Hh|].
          exact (flag_kept_no_set _ _ _ Hfk Hs).
        - destruct (monitor_step_spec os (Looping (pid_list_of s)) s)
            as [m' [s' [t1 [Heq [Hh [Hfk [Hl _]]]]]]].
          destruct (Hl _ eq_refl Hs) as [-> ->]. rewrite Hst in *.
          exists t1. split; [exact Heq|]. split; [exact Hh|].
          exact (flag_kept_no_set _ _ _ Hfk Hs). }
      destruct Hstep as [t1 [Heq [Hh Hz]]].
      destruct (IH (Looping (pid_list_of s)) s Hs (or_intror eq_refl) Hrest)
        as [t2 [Hw [Hz2 [Hk2 Hsp2]]]].
      exists (t1 ++ t2). cbn [wait_loop]. rewrite Heq, Hw.
      split; [reflexivity|].
      rewrite sets_app, kill_events_app, spawned_app, Hz, Hz2, Hk2, Hsp2.
      rewrite (harmless_kill_events t1 Hh), (harmless_spawned t1 Hh).
      repeat split.
    + subst i.
      destruct (IH m s Hs Hm Hrest) as [t2 [Hw [Hz2 [Hk2 Hsp2]]]].
      exists ([ESleep (1 # 100)] ++ t2). cbn [wait_loop].
      rewrite main_tick_eq, Hs, Hw.
      split; [reflexivity|].
      rewrite sets_app, kill_events_app, spawned_app, Hz2, Hk2, Hsp2.
      repeat split.
Qed.

Lemma healthy_supervisor_keeps_running_witness :
  exists t,
    wait_loop (hook_of s_running)
      [MonitorStep os_healthy; MainTick os_healthy false; MonitorStep os_healthy;
       MainTick os_healthy false; MonitorStep os_healthy]
      NotStarted s_running = (None, s_running, t) /\
    sets t = 0%nat /\ kill_events t = [] /\ spawned t = [].
Proof.
  apply (healthy_supervisor_keeps_running (hook_of s_running)
           [MonitorStep os_healthy; MainTick os_healthy false; MonitorStep os_healthy;
            MainTick os_healthy false; MonitorStep os_healthy] NotStarted s_running).
  - reflexivity.
  - left. reflexivity.
  - repeat constructor.
Defined.

Lemma clause_events os r g tg mk me p e :
  In e (snd (clause os r g tg mk me p)) ->
  e = EPrint mk \/ e = EPrint me \/ exists q, e = EKill r q.
Proof.
  unfold clause.
  destruct (truthy g); [|intros []].
  destruct (psutil_Process os tg) as [q|err]; [|intros []].
  unfold clause_trace. simpl.
  destruct (proc_kill os (pid q)); simpl; intuition eauto.
Qed.

(** A signal during the wait loop's sleep, with the flag clear: the run
    ends with status 0 and the signal handler's line, not the error line;
    the exit hook sets the stop event and calls [kill()] on every role with
    a known identifier whose lookup succeeds. *)
Theorem signal_exit_kills_every_known_process :
  forall (os : OS) (rest : list step) (m : monitor) (s : S3P),
    stop_event s = false ->
    exists t,
      wait_loop (hook_of s) (MainTick os true :: rest) m s =
        (Some (Exited 0), set_stop_event true s, t) /\
      In (EPrint signal_line) t /\ ~ In (EPrint error_line) t /\
      transitions t = 1%nat /\
      forall r q,
        known (proc_of r s) = true ->
        psutil_Process os (proc_of r s) = Ok q ->
        In (EKill r q) t.
Proof.
  intros os rest m s Hs.
  cbn [wait_loop]. rewrite main_tick_eq, Hs.
  pose proof (hook_attempts os s s) as Hat.
  pose proof (killall_flag_kept os (of_pid (proc_bp s)) (of_pid (proc_awg s))
                (of_pid (proc_hwg s)) s) as [_ [_ [_ Htr]]].
  pose proof (killall_eq os (of_pid (proc_bp s)) (of_pid (proc_awg s))
                (of_pid (proc_hwg s)) s) as Hke.
  unfold run_hook, hook_of in *.
  destruct (killall os _ _ _ s) as [[r3 s3] t3].
  cbv zeta in Hke. cbn [fst snd] in *.
  eexists. split; [inversion Hke; subst; reflexivity|].
  split; [right; left; reflexivity|].
  split; [|split].
  - intros [Hd|[Hd|Hin]]; [discriminate | discriminate |].
    inversion Hke; subst. destruct Hin as [Hd|Hin]; [discriminate|].
    unfold bp_clause, ws_clause, pb_clause in Hin.
    apply in_app_or in Hin. destruct Hin as [Hin|Hin];
      [|apply in_app_or in Hin; destruct Hin as [Hin|Hin]];
      apply clause_events in Hin;
      destruct Hin as [Hd|[Hd|[q Hd]]]; discriminate.
  - rewrite transitions_app, Htr, Hs.
    inversion Hke; subst. reflexivity.
  - intros r q Hk Hq. apply in_or_app. right.
    apply (Hat r q); [repeat split | exact Hk | exact Hq].
Qed.

Lemma signal_exit_kills_every_known_process_witness :
  exists t,
    wait_loop (hook_of s_running) [MainTick os_healthy true] NotStarted s_running =
      (Some (Exited 0), set_stop_event true s_running, t) /\
    In (EPrint signal_line) t /\ ~ In (EPrint error_line) t /\
    transitions t = 1%nat /\
    forall r q,
      known (proc_of r s_running) = true ->
      psutil_Process os_healthy (proc_of r s_running) = Ok q ->
      In (EKill r q) t.
Proof.
  apply (signal_exit_kills_every_known_process os_healthy [] NotStarted s_running).
  reflexivity.
Defined.

(** The trace of the wait loop: turns that neither spawn nor kill, then, if
    the run ends, the exit hook's [killall], which begins by setting the
    stop event. *)
Lemma wait_loop_shape h sched : forall m s o s' t,
  wait_loop h sched m s = (o, s', t) ->
  exists t1 t2,
    t = t1 ++ t2 /\ Forall harmless t1 /\
    (t2 = [] \/ exists b t3, t2 = ESet b :: t3).
Proof.
  induction sched as [|st rest IH]; intros m s o s' t H.
  - inversion H; subst. exists [], []. repeat split; auto.
  - assert (Hmain : forall os sg,
              match main_tick sg s with
              | (Ok _, s1, t1) =>
                  match wait_loop h rest m s1 with
                  | (o, s2, t2) => (o, s2, t1 ++ t2)
                  end
              | (Raise e, s1, t1) =>
                  match run_hook os h s1 with
                  | (_, s2, t2) => (Some (outcome_of e), s2, t1 ++ t2)
                  end
              end = (o, s', t) ->
              exists t1 t2,
                t = t1 ++ t2 /\ Forall harmless t1 /\
                (t2 = [] \/ exists b t3, t2 = ESet b :: t3)).
    { intros os sg Hm.
      destruct (main_turn_spec sg s) as [r [t1 [Heq [Hh _]]]].
      rewrite Heq in Hm. destruct r as [u|e].
      - destruct (wait_loop h rest m s) as [[o2 s2] t2] eqn:Hrest.
        inversion Hm; subst. apply IH in Hrest.
        destruct Hrest as [u1 [u2 [-> [Hu Hor]]]].
        exists (t1 ++ u1), u2. rewrite app_assoc.
        split; [reflexivity|]. split; [apply Forall_app; auto | exact Hor].
      - destruct h as [[b w] p]. unfold run_hook in Hm.
        rewrite killall_eq in Hm. cbv zeta in Hm. inversion Hm; subst.
        eexists t1, _. split; [reflexivity|]. split; [exact Hh|].
        right. eexists _, _. reflexivity. }
    destruct st as [os|os i|os]; cbn [wait_loop] in H.
    + destruct (monitor_step_spec os m s) as [m' [s1 [t1 [Heq [Hh _]]]]].
      rewrite Heq in H.
      destruct (wait_loop h rest m' s1) as [[o2 s2] t2] eqn:Hrest.
      inversion H; subst. apply IH in Hrest.
      destruct Hrest as [u1 [u2 [-> [Hu Hor]]]].
      exists (t1 ++ u1), u2. rewrite app_assoc.
      split; [reflexivity|]. split; [apply Forall_app; auto | exact Hor].
    + exact (Hmain os (in_sleep i) H).
    + exact (Hmain os OutsideTry H).
Qed.

Lemma split_after_prefix {A} (P : A -> Prop) (a : list A) : forall x pre e post,
  Forall P a -> ~ P e ->
  a ++ x = pre ++ e :: post ->
  exists pre', pre = a ++ pre' /\ x = pre' ++ e :: post.
Proof.
  induction a as [|y a IH]; intros x pre e post Hall Hne Heq.
  - exists pre. split; [reflexivity | exact Heq].
  - inversion Hall as [|? ? Hy Ha]; subst.
    destruct pre as [|z pre].
    + simpl in Heq. inversion Heq; subst. contradiction.
    + simpl in Heq. inversion Heq; subst.
      destruct (IH x pre e post Ha Hne H1) as [pre' [-> Hx]].
      exists pre'. split; [reflexivity | exact Hx].
Qed.

(** In every run, a [kill()] comes only after [stop_event.set()]: no
    process is killed while the stop event is clear. *)
Theorem no_kill_before_the_stop_event_is_set :
  forall (os0 : OS) (cp : option string) (sched : list step)
         (pre post : trace) (r : role) (q : process),
    snd (S3P_init os0 cp sched) = pre ++ EKill r q :: post ->
    exists b, In (ESet b) pre.
Proof.
  intros os0 cp sched pre post r q H.
  unfold S3P_init in H.
  pose proof (startup_events os0 (fresh cp)) as Hst.
  destruct (startup os0 (fresh cp)) as [[[u|e] s1] t1]; cbn [snd] in Hst.
  - destruct (wait_loop _ sched NotStarted (set_stop_event false s1))
      as [[o s2] t2] eqn:Hw.
    cbn [snd] in H.
    apply wait_loop_shape in Hw. destruct Hw as [u1 [u2 [-> [Hu Hor]]]].
    assert (Hpre : Forall (fun e => forall r q, e <> EKill r q)
                     (t1 ++ [EStart] ++ u1)).
    { apply Forall_app. split.
      - eapply Forall_impl; [|exact Hst]. intros e He r' q' ->. exact He.
      - apply Forall_app. split; [repeat constructor; discriminate|].
        eapply Forall_impl; [|exact Hu]. intros e He r' q' ->. exact He. }
    replace (t1 ++ [EStart] ++ u1 ++ u2) with ((t1 ++ [EStart] ++ u1) ++ u2) in H
      by (rewrite <- !app_assoc; reflexivity).
    destruct (split_after_prefix _ _ _ _ _ _ Hpre
                (fun Hn => Hn r q eq_refl) H) as [pre' [-> Hx]].
    destruct Hor as [-> | [b [t3 ->]]].
    + destruct pre'; discriminate.
    + destruct pre' as [|z pre']; [discriminate|].
      inversion Hx; subst. exists b.
      apply in_or_app. right. left. reflexivity.
  - cbn [snd] in H. exfalso.
    rewrite Forall_forall in Hst.
    assert (Hin : In (EKill r q) t1) by (rewrite H; apply in_or_app; right; left; reflexivity).
    exact (Hst _ Hin).
Qed.

Lemma no_kill_before_the_stop_event_is_set_witness :
  exists b,
    In (ESet b)
       (firstn 13 (snd (S3P_init os_boot None sched_zombie))).
Proof.
  apply (no_kill_before_the_stop_event_is_set os_boot None sched_zombie
           (firstn 13 (snd (S3P_init os_boot None sched_zombie)))
           (skipn 14 (snd (S3P_init os_boot None sched_zombie)))
           Backplane (mkProcess 100)).
  reflexivity.
Defined.

(** ** The advisory lines in a run *)










